(** * Black-Scholes pricing engine (BlackScholes.py): model and properties

    The engine is the class [BlackScholes] of [BlackScholes.py]: a
    constructor that records the request, [calculate_prices] and
    [calculate_risk_metrics].

    Numbers.  A Python [float] is modelled by [pyfloat]: a real number, or
    one of the three special values [inf], [-inf], [nan].  Arithmetic on
    finite values is exact real arithmetic; the special values follow the
    IEEE rules that numpy and Python implement.  The rounding error, the
    overflow and the signed zero of binary64 are outside the model.

    Library functions.  [numpy.log], [numpy.exp], [numpy.sqrt],
    [scipy.stats.norm.cdf], [scipy.stats.norm.pdf] and
    [numpy.format_float_positional] are not code of the repository; they
    are modelled by the mathematical functions they implement. *)

From Stdlib Require Import Reals Lra Lia ZArith Bool List String.
From Stdlib Require Import Zfloor.
Import ListNotations.

Open Scope R_scope.

(* ================================================================= *)
(** ** Python floats *)

Inductive pyfloat : Type :=
| Fin (x : R)
| PInf
| NInf
| NaN.

(** Boolean tests on reals, as the comparisons of the source return. *)
Definition Rltb (x y : R) : bool := if Rlt_dec x y then true else false.
Definition Reqb (x y : R) : bool := if Req_dec_T x y then true else false.

Lemma Rltb_true x y : Rltb x y = true <-> x < y.
Proof. unfold Rltb; destruct (Rlt_dec x y); split; intros; auto; discriminate. Qed.

Lemma Rltb_false x y : Rltb x y = false <-> ~ x < y.
Proof.
  unfold Rltb; destruct (Rlt_dec x y); split; intros; auto;
    try discriminate; contradiction.
Qed.

Lemma Reqb_true x y : Reqb x y = true <-> x = y.
Proof. unfold Reqb; destruct (Req_dec_T x y); split; intros; auto; discriminate. Qed.

Lemma Reqb_false x y : Reqb x y = false <-> x <> y.
Proof.
  unfold Reqb; destruct (Req_dec_T x y); split; intros; auto;
    try discriminate; contradiction.
Qed.

(* ================================================================= *)
(** ** Exceptions *)

Inductive exn : Type :=
| ZeroDivisionError.

Inductive result (A : Type) : Type :=
| Ok (a : A)
| Raise (e : exn).

Arguments Ok {A} a.
Arguments Raise {A} e.

Definition bind {A B : Type} (m : result A) (k : A -> result B) : result B :=
  match m with
  | Ok a => k a
  | Raise e => Raise e
  end.

Notation "x <- m ;; k" := (bind m (fun x => k))
  (at level 61, m at next level, right associativity).

(* ================================================================= *)
(** ** Float operations *)

Module Py.

(** [-a] *)
Definition neg (a : pyfloat) : pyfloat :=
  match a with
  | Fin x => Fin (- x)
  | PInf => NInf
  | NInf => PInf
  | NaN => NaN
  end.

(** [a + b] *)
Definition add (a b : pyfloat) : pyfloat :=
  match a, b with
  | NaN, _ | _, NaN => NaN
  | Fin x, Fin y => Fin (x + y)
  | PInf, NInf | NInf, PInf => NaN
  | PInf, _ | _, PInf => PInf
  | NInf, _ | _, NInf => NInf
  end.

(** [a - b] *)
Definition sub (a b : pyfloat) : pyfloat := add a (neg b).

(** The sign of an infinite product or quotient: [s] is the infinity
    taken when the finite factor [x] is positive. *)
Definition scale_inf (s : pyfloat) (x : R) : pyfloat :=
  if Reqb x 0 then NaN else if Rltb 0 x then s else neg s.

(** [a * b] *)
Definition mul (a b : pyfloat) : pyfloat :=
  match a, b with
  | NaN, _ | _, NaN => NaN
  | Fin x, Fin y => Fin (x * y)
  | Fin x, PInf | PInf, Fin x => scale_inf PInf x
  | Fin x, NInf | NInf, Fin x => scale_inf NInf x
  | PInf, PInf | NInf, NInf => PInf
  | PInf, NInf | NInf, PInf => NaN
  end.

(** [abs(a)] *)
Definition abs (a : pyfloat) : pyfloat :=
  match a with
  | Fin x => Fin (Rabs x)
  | PInf | NInf => PInf
  | NaN => NaN
  end.

(** [a ** 2], as the exact product.  Python raises [OverflowError] when
    the square exceeds the largest float; the properties that depend on
    the square assume [squares_safely]. *)
Definition sq (a : pyfloat) : pyfloat := mul a a.

(** [a < b]; every comparison with [nan] is false. *)
Definition lt (a b : pyfloat) : bool :=
  match a, b with
  | NaN, _ | _, NaN => false
  | Fin x, Fin y => Rltb x y
  | Fin _, PInf | NInf, Fin _ | NInf, PInf => true
  | Fin _, NInf | PInf, _ | NInf, NInf => false
  end.

(** [a != 0]; [nan] and the infinities differ from zero. *)
Definition ne0 (a : pyfloat) : bool :=
  match a with
  | Fin x => negb (Reqb x 0)
  | _ => true
  end.

(** Truth value of a float: only zero is false. *)
Definition truthy (a : pyfloat) : bool := ne0 a.

(** [a or b] on an optional float: [None] and zero give [b]. *)
Definition or_else (a : option pyfloat) (b : pyfloat) : pyfloat :=
  match a with
  | Some x => if truthy x then x else b
  | None => b
  end.

(** Quotient of two floats once the divisor is known not to be a finite
    zero. *)
Definition quot (a b : pyfloat) : pyfloat :=
  match a, b with
  | NaN, _ | _, NaN => NaN
  | Fin x, Fin y => Fin (x / y)
  | Fin _, _ => Fin 0
  | PInf, Fin y => if Rltb y 0 then NInf else PInf
  | NInf, Fin y => if Rltb y 0 then PInf else NInf
  | _, _ => NaN
  end.

(** [a / b] on two Python floats: a zero divisor raises. *)
Definition pydiv (a b : pyfloat) : result pyfloat :=
  match b with
  | Fin y => if Reqb y 0 then Raise ZeroDivisionError else Ok (quot a b)
  | _ => Ok (quot a b)
  end.

(** [a / b] when an operand is a numpy scalar: a zero divisor gives an
    infinity or [nan] (with a warning, which is not an exception). *)
Definition npdiv (a b : pyfloat) : pyfloat :=
  match b with
  | Fin y =>
      if Reqb y 0 then
        match a with
        | Fin x => scale_inf PInf x
        | NaN => NaN
        | s => s
        end
      else quot a b
  | _ => quot a b
  end.

End Py.

(* ================================================================= *)
(** ** The standard normal law

    [scipy.stats.norm] is the normal law of mean 0 and variance 1: its
    density is proportional to [exp (- t * t / 2)] and has total mass 1,
    and [norm.cdf] is the integral of the density from minus infinity. *)

Module Gaussian.

Definition gauss (t : R) : R := exp (- (t * t) / 2).

Lemma gauss_pos t : 0 < gauss t.
Proof. apply exp_pos. Qed.

Lemma exp_le (x y : R) : x <= y -> exp x <= exp y.
Proof.
  intros [H | ->]; [left; apply exp_increasing; exact H | right; reflexivity].
Qed.


Lemma gauss_even t : gauss (- t) = gauss t.
Proof. unfold gauss. apply f_equal. field. Qed.

Lemma derivable_gauss : derivable gauss.
Proof. unfold gauss. reg. Qed.

Lemma continuity_gauss : continuity gauss.
Proof. apply derivable_continuous, derivable_gauss. Qed.

Lemma gauss_integrable (a b : R) : Riemann_integrable gauss a b.
Proof.
  destruct (Rle_dec a b) as [H | H].
  - apply continuity_implies_RiemannInt; [exact H | intros; apply continuity_gauss].
  - apply RiemannInt_P1, continuity_implies_RiemannInt;
      [lra | intros; apply continuity_gauss].
Qed.

Definition gauss_int (x : R) : R := RiemannInt (gauss_integrable 0 x).

Lemma gauss_int_0 : gauss_int 0 = 0.
Proof. apply RiemannInt_P9. Qed.

Lemma gauss_int_deriv (x : R) : derivable_pt_lim gauss_int x (gauss x).
Proof.
  set (a := Rmin x 0 - 1). set (b := Rmax x 0 + 1).
  assert (Hx : a < x < b).
  { unfold a, b. pose proof (Rmin_l x 0). pose proof (Rmax_l x 0). lra. }
  assert (H0 : a <= 0 <= b).
  { unfold a, b. pose proof (Rmin_r x 0). pose proof (Rmax_r x 0). lra. }
  assert (h : a <= b) by lra.
  assert (C0 : forall y, a <= y <= b -> continuity_pt gauss y)
    by (intros; apply continuity_gauss).
  pose (P := primitive h (FTC_P1 h C0)).
  apply derivable_pt_lim_locally_ext with (f := fun y => P y - P 0) (a := a) (b := b).
  - exact Hx.
  - intros z Hz. unfold P, primitive.
    destruct (Rle_dec a z) as [Haz | ]; [ | lra].
    destruct (Rle_dec z b) as [Hzb | ]; [ | lra].
    destruct (Rle_dec a 0) as [Ha0 | ]; [ | lra].
    destruct (Rle_dec 0 b) as [H0b | ]; [ | lra].
    unfold gauss_int.
    rewrite <- (RiemannInt_P26 (FTC_P1 h C0 Ha0 H0b) (gauss_integrable 0 z)
                  (FTC_P1 h C0 Haz Hzb)).
    ring.
  - replace (gauss x) with (gauss x - 0) by ring.
    apply (derivable_pt_lim_minus P (fun _ => P 0)).
    + apply RiemannInt_P27. exact Hx.
    + apply derivable_pt_lim_const.
Qed.

(** A function whose derivative is nonnegative between [a] and [b] does
    not decrease from [a] to [b]. *)
Lemma deriv_nonneg_le (f f' : R -> R) (a b : R) :
  a <= b ->
  (forall c, a <= c <= b -> derivable_pt_lim f c (f' c)) ->
  (forall c, a <= c <= b -> 0 <= f' c) ->
  f a <= f b.
Proof.
  intros [Hab | ->] Hd Hs; [ | lra].
  destruct (MVT_cor2 f f' a b Hab Hd) as (c & Hc & Hin).
  assert (0 <= f' c) by (apply Hs; lra).
  nra.
Qed.

Lemma deriv_pos_lt (f f' : R -> R) (a b : R) :
  a < b ->
  (forall c, a <= c <= b -> derivable_pt_lim f c (f' c)) ->
  (forall c, a <= c <= b -> 0 < f' c) ->
  f a < f b.
Proof.
  intros Hab Hd Hs.
  destruct (MVT_cor2 f f' a b Hab Hd) as (c & Hc & Hin).
  assert (0 < f' c) by (apply Hs; lra).
  nra.
Qed.

Lemma deriv_zero_eq (f : R -> R) (a b : R) :
  (forall c, derivable_pt_lim f c 0) -> f a = f b.
Proof.
  intros Hd.
  assert (forall u v, u <= v -> f u = f v) as Hle.
  { intros u v Huv. apply Rle_antisym.
    - apply (deriv_nonneg_le f (fun _ => 0)); auto; intros; lra.
    - assert (- f u <= - f v); [ | lra].
      apply (deriv_nonneg_le (fun y => - f y) (fun _ => 0)); auto; [ | intros; lra].
      intros c _. replace 0 with (- 0) by ring.
      apply (derivable_pt_lim_opp f). apply Hd. }
  destruct (Rle_dec a b); [ | symmetry]; apply Hle; lra.
Qed.

Lemma gauss_int_lt (x y : R) : x < y -> gauss_int x < gauss_int y.
Proof.
  intros H. apply (deriv_pos_lt gauss_int gauss); auto.
  - intros; apply gauss_int_deriv.
  - intros; apply gauss_pos.
Qed.

Lemma gauss_int_odd (x : R) : gauss_int (- x) = - gauss_int x.
Proof.
  pose (f := fun y => gauss_int y + gauss_int (- y)).
  assert (f x = f 0); [ | unfold f in *; rewrite Ropp_0, gauss_int_0 in *; lra ].
  apply deriv_zero_eq. intros c. unfold f.
  replace 0 with (gauss c + gauss (- c) * (-1)) by (rewrite gauss_even; ring).
  apply (derivable_pt_lim_plus gauss_int (fun y => gauss_int (- y))).
  - apply gauss_int_deriv.
  - apply (derivable_pt_lim_comp (fun y => - y) gauss_int).
    + replace (-1) with (- (1)) by ring.
      apply (derivable_pt_lim_opp id). apply derivable_pt_lim_id.
    + apply gauss_int_deriv.
Qed.

Lemma gauss_le_exp (c : R) : gauss c <= exp (1 / 2 - c).
Proof.
  unfold gauss. apply exp_le.
  pose proof (Rle_0_sqr (c - 1)) as H. unfold Rsqr in H. lra.
Qed.

Lemma gauss_int_le_tail (x : R) :
  0 <= x -> gauss_int x <= exp (1 / 2) - exp (1 / 2 - x).
Proof.
  intros Hx.
  pose (f := fun y => - exp (1 / 2 - y) - gauss_int y).
  assert (f 0 <= f x).
  { apply (deriv_nonneg_le f (fun c => exp (1 / 2 - c) - gauss c)); auto.
    - intros c _. unfold f.
      apply (derivable_pt_lim_minus (fun y => - exp (1 / 2 - y)) gauss_int);
        [ | apply gauss_int_deriv].
      replace (exp (1 / 2 - c)) with (- (exp (1 / 2 - c) * (0 - 1))) by ring.
      apply (derivable_pt_lim_opp (fun y => exp (1 / 2 - y))).
      apply (derivable_pt_lim_comp (fun y => 1 / 2 - y) exp).
      + apply (derivable_pt_lim_minus (fun _ => 1 / 2) id);
          [apply derivable_pt_lim_const | apply derivable_pt_lim_id].
      + apply derivable_pt_lim_exp.
    - intros c _. pose proof (gauss_le_exp c). lra. }
  unfold f in H. rewrite gauss_int_0 in H.
  replace (1 / 2 - 0) with (1 / 2) in H by ring. lra.
Qed.

Lemma gauss_int_le_sqrt_e (x : R) : gauss_int x <= exp (1 / 2).
Proof.
  destruct (Rle_dec 0 x) as [Hx | Hx].
  - pose proof (gauss_int_le_tail x Hx). pose proof (exp_pos (1 / 2 - x)). lra.
  - assert (gauss_int x < gauss_int 0) by (apply gauss_int_lt; lra).
    rewrite gauss_int_0 in H. pose proof (exp_pos (1 / 2)). lra.
Qed.

(** The values taken by [gauss_int]. *)
Definition gauss_area (y : R) : Prop := exists x, y = gauss_int x.

Lemma gauss_area_bound : bound gauss_area.
Proof.
  exists (exp (1 / 2)). intros y [x ->]. apply gauss_int_le_sqrt_e.
Qed.

Lemma gauss_area_inhabited : exists y, gauss_area y.
Proof. exists (gauss_int 0), 0. reflexivity. Qed.

(** The integral of [gauss] over the positive half line. *)
Definition gauss_half_mass : R :=
  proj1_sig (completeness gauss_area gauss_area_bound gauss_area_inhabited).

Lemma gauss_half_mass_lub : is_lub gauss_area gauss_half_mass.
Proof.
  unfold gauss_half_mass.
  destruct (completeness gauss_area gauss_area_bound gauss_area_inhabited).
  assumption.
Qed.

Lemma gauss_int_lt_half_mass (x : R) : gauss_int x < gauss_half_mass.
Proof.
  destruct gauss_half_mass_lub as [Hub _].
  apply Rlt_le_trans with (gauss_int (x + 1)).
  - apply gauss_int_lt. lra.
  - apply Hub. exists (x + 1). reflexivity.
Qed.

Lemma gauss_half_mass_pos : 0 < gauss_half_mass.
Proof. rewrite <- gauss_int_0. apply gauss_int_lt_half_mass. Qed.

Lemma gauss_int_gt_half_mass (x : R) : - gauss_half_mass < gauss_int x.
Proof.
  pose proof (gauss_int_lt_half_mass (- x)) as H.
  rewrite gauss_int_odd in H. lra.
Qed.

Lemma gauss_half_mass_le : gauss_half_mass <= exp (1 / 2).
Proof.
  destruct gauss_half_mass_lub as [_ Hl]. apply Hl.
  intros y [x ->]. apply gauss_int_le_sqrt_e.
Qed.

(** The standard normal law: density and distribution function.  The
    density is [gauss] divided by its integral over the whole line,
    [2 * gauss_half_mass]; that this constant is [sqrt (2 * PI)], as scipy
    writes it, is not used by any property below. *)
Definition phi (x : R) : R := gauss x / (2 * gauss_half_mass).

Definition Phi (x : R) : R := 1 / 2 + gauss_int x / (2 * gauss_half_mass).

Lemma phi_pos x : 0 < phi x.
Proof.
  unfold phi. apply Rdiv_lt_0_compat; [apply gauss_pos | ].
  pose proof gauss_half_mass_pos. lra.
Qed.


Lemma Phi_opp x : Phi (- x) = 1 - Phi x.
Proof.
  unfold Phi. rewrite gauss_int_odd.
  pose proof gauss_half_mass_pos. field. lra.
Qed.

Lemma Phi_pos x : 0 < Phi x.
Proof.
  unfold Phi. pose proof gauss_half_mass_pos as Hm.
  pose proof (gauss_int_gt_half_mass x) as Hx.
  assert (- (1 / 2) < gauss_int x / (2 * gauss_half_mass)); [ | lra].
  apply Rmult_lt_reg_r with (2 * gauss_half_mass); [lra | ].
  unfold Rdiv. rewrite Rmult_assoc, Rinv_l by lra. lra.
Qed.

Lemma Phi_lt_1 x : Phi x < 1.
Proof.
  pose proof (Phi_pos (- x)) as H. rewrite Phi_opp in H. lra.
Qed.

Lemma Phi_0 : Phi 0 = 1 / 2.
Proof. unfold Phi. rewrite gauss_int_0. unfold Rdiv. ring. Qed.





End Gaussian.

(* ================================================================= *)
(** ** Decimal rounding

    [float(np.format_float_positional(x, precision=p))] prints [x] with at
    most [p] digits after the decimal point, correctly rounded, and reads
    the text back. *)

(** Nearest integer, a tie going to the even neighbour. *)
Definition round_half_even (y : R) : Z :=
  let f := Zfloor y in
  if Rltb (y - IZR f) (1 / 2) then f
  else if Rltb (1 / 2) (y - IZR f) then (f + 1)%Z
  else if Z.even f then f else (f + 1)%Z.

(** The decimal rounding of [x] to [p] digits after the point. *)
Definition round_decimals (p : nat) (x : R) : R :=
  IZR (round_half_even (x * 10 ^ p)) / 10 ^ p.

Lemma round_half_even_cases (y : R) :
  let f := Zfloor y in
  (round_half_even y = f /\ y - IZR f <= 1 / 2) \/
  (round_half_even y = (f + 1)%Z /\ 1 / 2 <= y - IZR f).
Proof.
  intros f. unfold round_half_even. fold f.
  destruct (Rltb (y - IZR f) (1 / 2)) eqn:E1.
  - apply Rltb_true in E1. left; split; [reflexivity | lra].
  - apply Rltb_false in E1.
    destruct (Rltb (1 / 2) (y - IZR f)) eqn:E2.
    + right; split; [reflexivity | lra].
    + apply Rltb_false in E2.
      destruct (Z.even f); [left | right]; split; try reflexivity; lra.
Qed.

Lemma round_half_even_IZR (k : Z) : round_half_even (IZR k) = k.
Proof.
  unfold round_half_even. rewrite ZfloorZ.
  replace (IZR k - IZR k) with 0 by ring.
  destruct (Rltb 0 (1 / 2)) eqn:E; [reflexivity | ].
  apply Rltb_false in E. lra.
Qed.

Lemma round_half_even_err (y : R) :
  Rabs (IZR (round_half_even y) - y) <= 1 / 2.
Proof.
  pose proof (Zfloor_bound y) as Hb.
  destruct (round_half_even_cases y) as [[-> H] | [-> H]];
    [ | rewrite plus_IZR]; apply Rabs_le; lra.
Qed.

Lemma round_half_even_le (x y : R) :
  x <= y -> (round_half_even x <= round_half_even y)%Z.
Proof.
  intros Hxy.
  pose proof (Zfloor_le x y Hxy) as Hf.
  destruct (Z.eq_dec (Zfloor x) (Zfloor y)) as [E | N].
  - unfold round_half_even. rewrite <- E.
    destruct (Rltb (x - IZR (Zfloor x)) (1 / 2)) eqn:X1.
    + destruct (Rltb (y - IZR (Zfloor x)) (1 / 2));
        [ | destruct (Rltb (1 / 2) (y - IZR (Zfloor x)));
            [ | destruct (Z.even (Zfloor x))]]; lia.
    + apply Rltb_false in X1.
      destruct (Rltb (y - IZR (Zfloor x)) (1 / 2)) eqn:Y1;
        [apply Rltb_true in Y1; lra | ].
      destruct (Rltb (1 / 2) (x - IZR (Zfloor x))) eqn:X2.
      * apply Rltb_true in X2.
        destruct (Rltb (1 / 2) (y - IZR (Zfloor x))) eqn:Y2; [lia | ].
        apply Rltb_false in Y2. lra.
      * destruct (Rltb (1 / 2) (y - IZR (Zfloor x)));
          destruct (Z.even (Zfloor x)); lia.
  - destruct (round_half_even_cases x) as [[-> _] | [-> _]];
      destruct (round_half_even_cases y) as [[-> _] | [-> _]]; lia.
Qed.

Lemma pow10_pos (p : nat) : 0 < 10 ^ p.
Proof. apply pow_lt. lra. Qed.

(** A real with at most [p] digits after the decimal point. *)
Definition has_decimals (p : nat) (x : R) : Prop :=
  exists k : Z, x = IZR k / 10 ^ p.

Lemma round_decimals_has (p : nat) (x : R) : has_decimals p (round_decimals p x).
Proof. eexists. reflexivity. Qed.

Lemma round_decimals_fix (p : nat) (x : R) :
  has_decimals p x -> round_decimals p x = x.
Proof.
  intros [k ->]. unfold round_decimals.
  pose proof (pow10_pos p).
  replace (IZR k / 10 ^ p * 10 ^ p) with (IZR k) by (field; lra).
  rewrite round_half_even_IZR. reflexivity.
Qed.

Lemma round_decimals_fix_iff (p : nat) (x : R) :
  round_decimals p x = x <-> has_decimals p x.
Proof.
  split; [intros <-; apply round_decimals_has | apply round_decimals_fix].
Qed.

Lemma round_decimals_idem (p : nat) (x : R) :
  round_decimals p (round_decimals p x) = round_decimals p x.
Proof. apply round_decimals_fix, round_decimals_has. Qed.

Lemma round_decimals_err (p : nat) (x : R) :
  Rabs (round_decimals p x - x) <= / (2 * 10 ^ p).
Proof.
  pose proof (pow10_pos p) as Hp.
  pose proof (round_half_even_err (x * 10 ^ p)) as H.
  unfold round_decimals.
  replace (IZR (round_half_even (x * 10 ^ p)) / 10 ^ p - x)
    with ((IZR (round_half_even (x * 10 ^ p)) - x * 10 ^ p) * / 10 ^ p)
    by (field; lra).
  rewrite Rabs_mult, (Rabs_pos_eq (/ 10 ^ p))
    by (left; apply Rinv_0_lt_compat; exact Hp).
  rewrite Rinv_mult.
  apply Rmult_le_compat_r; [left; apply Rinv_0_lt_compat; exact Hp | lra].
Qed.

Lemma round_decimals_le (p : nat) (x y : R) :
  x <= y -> round_decimals p x <= round_decimals p y.
Proof.
  intros H. pose proof (pow10_pos p) as Hp. unfold round_decimals.
  apply Rmult_le_compat_r; [left; apply Rinv_0_lt_compat; exact Hp | ].
  apply IZR_le, round_half_even_le.
  apply Rmult_le_compat_r; lra.
Qed.

Lemma has_decimals_plus p x y :
  has_decimals p x -> has_decimals p y -> has_decimals p (x + y).
Proof.
  intros [k ->] [l ->]. exists (k + l)%Z. rewrite plus_IZR.
  pose proof (pow10_pos p). field. lra.
Qed.

Lemma has_decimals_opp p x : has_decimals p x -> has_decimals p (- x).
Proof.
  intros [k ->]. exists (- k)%Z. rewrite opp_IZR.
  pose proof (pow10_pos p). field. lra.
Qed.

Lemma has_decimals_abs p x : has_decimals p x -> has_decimals p (Rabs x).
Proof.
  intros H. unfold Rabs. destruct (Rcase_abs x); [apply has_decimals_opp | ]; exact H.
Qed.

Lemma has_decimals_IZR p (k : Z) : has_decimals p (IZR k).
Proof.
  exists (k * 10 ^ Z.of_nat p)%Z. rewrite mult_IZR.
  pose proof (pow10_pos p).
  rewrite <- pow_IZR. field. lra.
Qed.

(* ================================================================= *)
(** ** Library functions on floats *)

Module np.

(** [float(np.format_float_positional(a, precision=p))]; [inf], [-inf]
    and [nan] are printed by name and read back unchanged. *)
Definition format_float_positional (a : pyfloat) (precision : nat) : pyfloat :=
  match a with
  | Fin x => Fin (round_decimals precision x)
  | s => s
  end.

(** [numpy.sqrt]: [nan] below zero. *)
Definition sqrt (a : pyfloat) : pyfloat :=
  match a with
  | Fin x => if Rltb x 0 then NaN else Fin (R_sqrt.sqrt x)
  | PInf => PInf
  | NInf | NaN => NaN
  end.

(** [numpy.log]: [-inf] at zero, [nan] below zero. *)
Definition log (a : pyfloat) : pyfloat :=
  match a with
  | Fin x => if Rltb 0 x then Fin (ln x) else if Reqb x 0 then NInf else NaN
  | PInf => PInf
  | NInf | NaN => NaN
  end.

(** [numpy.exp] *)
Definition exp (a : pyfloat) : pyfloat :=
  match a with
  | Fin x => Fin (Rtrigo_def.exp x)
  | PInf => PInf
  | NInf => Fin 0
  | NaN => NaN
  end.

End np.

Module norm.

(** [scipy.stats.norm.cdf] *)
Definition cdf (a : pyfloat) : pyfloat :=
  match a with
  | Fin x => Fin (Gaussian.Phi x)
  | PInf => Fin 1
  | NInf => Fin 0
  | NaN => NaN
  end.

(** [scipy.stats.norm.pdf] *)
Definition pdf (a : pyfloat) : pyfloat :=
  match a with
  | Fin x => Fin (Gaussian.phi x)
  | PInf | NInf => Fin 0
  | NaN => NaN
  end.

End norm.

(* ================================================================= *)
(** ** The engine: class [BlackScholes] *)

(** The arguments of the constructor. *)
Record Request : Type := mkRequest {
  arg_time_to_maturity : pyfloat;
  arg_strike : pyfloat;
  arg_current_price : pyfloat;
  arg_volatility : pyfloat;
  arg_interest_rate : pyfloat;
  arg_call_purchase_price : option pyfloat;
  arg_put_purchase_price : option pyfloat;
  arg_purchase_time_to_maturity : option pyfloat
}.

(** The attributes that the constructor records. *)
Record BlackScholes : Type := mkBlackScholes {
  time_to_maturity : pyfloat;
  strike : pyfloat;
  current_price : pyfloat;
  volatility : pyfloat;
  interest_rate : pyfloat;
  call_purchase_price : option pyfloat;
  put_purchase_price : option pyfloat;
  purchase_time_to_maturity : pyfloat
}.

(** [BlackScholes.__init__] *)
Definition __init__ (rq : Request) : BlackScholes :=
  {| time_to_maturity :=
       np.format_float_positional (arg_time_to_maturity rq) 10;
     strike := np.format_float_positional (arg_strike rq) 10;
     current_price := np.format_float_positional (arg_current_price rq) 10;
     volatility := np.format_float_positional (arg_volatility rq) 10;
     interest_rate := np.format_float_positional (arg_interest_rate rq) 10;
     call_purchase_price :=
       match arg_call_purchase_price rq with
       | Some p => Some (np.format_float_positional p 10)
       | None => None
       end;
     put_purchase_price :=
       match arg_put_purchase_price rq with
       | Some p => Some (np.format_float_positional p 10)
       | None => None
       end;
     purchase_time_to_maturity :=
       np.format_float_positional
         (Py.or_else (arg_purchase_time_to_maturity rq)
                     (arg_time_to_maturity rq)) 10 |}.

(** The attributes that [calculate_prices] sets. *)
Record Prices : Type := mkPrices {
  call_price : pyfloat;
  put_price : pyfloat;
  call_pnl : pyfloat;
  call_pnl_percentage : pyfloat;
  put_pnl : pyfloat;
  put_pnl_percentage : pyfloat;
  call_delta : pyfloat;
  put_delta : pyfloat;
  gamma : pyfloat
}.

(** The test that guards the zeroing of the PnL (lines 59-60 and 75-76):
    [abs(T - purchase_T) < 1e-10 and abs(S - S) < 1e-10]. *)
Definition purchased_now (self : BlackScholes) : bool :=
  Py.lt (Py.abs (Py.sub (time_to_maturity self) (purchase_time_to_maturity self)))
        (Fin 1e-10)
  && Py.lt (Py.abs (Py.sub (current_price self) (current_price self)))
           (Fin 1e-10).

(** The PnL and PnL percentage of one leg (lines 58-72 for the call, the
    same code at lines 74-88 for the put). *)
Definition leg_pnl (self : BlackScholes) (price : pyfloat)
    (purchase_price : option pyfloat) : result (pyfloat * pyfloat) :=
  match purchase_price with
  | Some bought =>
      if purchased_now self then Ok (Fin 0, Fin 0)
      else
        let pnl := np.format_float_positional (Py.sub price bought) 10 in
        pct <- (if Py.ne0 bought
                then q <- Py.pydiv pnl bought ;; Ok (Py.mul q (Fin 100))
                else Ok (Fin 0)) ;;
        Ok (pnl, np.format_float_positional pct 10)
  | None => Ok (Fin 0, Fin 0)
  end.

(** [d1] and [d2] (lines 34-39), from the quotient [S / K]. *)
Definition d1_of (self : BlackScholes) (moneyness : pyfloat) : pyfloat :=
  Py.npdiv
    (Py.add (np.log moneyness)
       (Py.mul (Py.add (interest_rate self)
                  (Py.mul (Fin 0.5) (Py.sq (volatility self))))
               (time_to_maturity self)))
    (Py.mul (volatility self) (np.sqrt (time_to_maturity self))).

Definition d2_of (self : BlackScholes) (d1 : pyfloat) : pyfloat :=
  Py.sub d1 (Py.mul (volatility self) (np.sqrt (time_to_maturity self))).

(** [K * exp(-r * T)] *)
Definition discounted_strike (self : BlackScholes) : pyfloat :=
  Py.mul (strike self)
    (np.exp (Py.mul (Py.neg (interest_rate self)) (time_to_maturity self))).

(** [BlackScholes.calculate_prices]: the attributes set and the pair
    returned. *)
Definition calculate_prices (self : BlackScholes)
  : result (Prices * (pyfloat * pyfloat)) :=
  moneyness <- Py.pydiv (current_price self) (strike self) ;;
  let d1 := d1_of self moneyness in
  let d2 := d2_of self d1 in
  let call_price :=
    np.format_float_positional
      (Py.sub (Py.mul (current_price self) (norm.cdf d1))
              (Py.mul (discounted_strike self) (norm.cdf d2))) 10 in
  let put_price :=
    np.format_float_positional
      (Py.sub (Py.mul (discounted_strike self) (norm.cdf (Py.neg d2)))
              (Py.mul (current_price self) (norm.cdf (Py.neg d1)))) 10 in
  call_leg <- leg_pnl self call_price (call_purchase_price self) ;;
  put_leg <- leg_pnl self put_price (put_purchase_price self) ;;
  Ok ({| call_price := call_price;
         put_price := put_price;
         call_pnl := fst call_leg;
         call_pnl_percentage := snd call_leg;
         put_pnl := fst put_leg;
         put_pnl_percentage := snd put_leg;
         call_delta := norm.cdf d1;
         put_delta := Py.neg (norm.cdf (Py.neg d1));
         gamma :=
           Py.npdiv (norm.pdf d1)
             (Py.mul (Py.mul (current_price self) (volatility self))
                     (np.sqrt (time_to_maturity self))) |},
      (call_price, put_price)).

(** The dictionary that [calculate_risk_metrics] returns (and the
    attributes of the same names that it sets). *)
Record RiskMetrics : Type := mkRiskMetrics {
  max_call_loss : pyfloat;
  max_put_loss : pyfloat;
  max_call_gain : pyfloat;
  max_put_gain : pyfloat;
  call_breakeven : pyfloat;
  put_breakeven : pyfloat
}.

(** [BlackScholes.calculate_risk_metrics] *)
Definition calculate_risk_metrics (self : BlackScholes) : RiskMetrics :=
  {| max_call_loss :=
       np.format_float_positional
         (match call_purchase_price self with
          | Some p => Py.abs p
          | None => Fin 0
          end) 10;
     max_put_loss :=
       np.format_float_positional
         (match put_purchase_price self with
          | Some p => Py.abs p
          | None => Fin 0
          end) 10;
     max_call_gain :=
       match call_purchase_price self with
       | Some _ => PInf
       | None => Fin 0
       end;
     max_put_gain :=
       match put_purchase_price self with
       | Some p => np.format_float_positional (Py.sub (strike self) p) 10
       | None => Fin 0
       end;
     call_breakeven :=
       np.format_float_positional
         (Py.add (strike self) (Py.or_else (call_purchase_price self) (Fin 0)))
         10;
     put_breakeven :=
       np.format_float_positional
         (Py.sub (strike self) (Py.or_else (put_purchase_price self) (Fin 0)))
         10 |}.

(** The three engines of [TestBlackScholes.setUp]. *)
Definition bs_atm : Request :=
  mkRequest (Fin 1.0) (Fin 100.0) (Fin 100.0) (Fin 0.2) (Fin 0.05)
            (Some (Fin 8.0)) (Some (Fin 6.0)) None.

Definition bs_itm_call : Request :=
  mkRequest (Fin 1.0) (Fin 90.0) (Fin 100.0) (Fin 0.2) (Fin 0.05)
            (Some (Fin 15.0)) (Some (Fin 2.0)) None.

Definition bs_otm_call : Request :=
  mkRequest (Fin 1.0) (Fin 110.0) (Fin 100.0) (Fin 0.2) (Fin 0.05)
            (Some (Fin 3.0)) (Some (Fin 10.0)) None.

(* ================================================================= *)
(** ** What [calculate_prices] returns *)

Lemma pydiv_ok (a b : pyfloat) :
  b <> Fin 0 -> Py.pydiv a b = Ok (Py.quot a b).
Proof.
  intros Hb. unfold Py.pydiv. destruct b as [y | | | ]; try reflexivity.
  destruct (Reqb y 0) eqn:E; [ | reflexivity].
  apply Reqb_true in E. subst y. contradiction.
Qed.

Lemma pydiv_zero (a : pyfloat) : Py.pydiv a (Fin 0) = Raise ZeroDivisionError.
Proof.
  unfold Py.pydiv. destruct (Reqb 0 0) eqn:E; [reflexivity | ].
  apply Reqb_false in E. contradiction.
Qed.

Lemma ne0_not_zero (a : pyfloat) : Py.ne0 a = true -> a <> Fin 0.
Proof.
  destruct a as [x | | | ]; simpl; intros H; try discriminate.
  intros [= ->]. apply negb_true_iff, Reqb_false in H. contradiction.
Qed.

Lemma ne0_zero (a : pyfloat) : Py.ne0 a = false -> a = Fin 0.
Proof.
  destruct a as [x | | | ]; simpl; intros H; try discriminate.
  apply negb_false_iff, Reqb_true in H. subst x. reflexivity.
Qed.

(** The percentage of a leg once its PnL is known. *)
Definition pnl_percentage (pnl bought : pyfloat) : pyfloat :=
  np.format_float_positional
    (if Py.ne0 bought then Py.mul (Py.quot pnl bought) (Fin 100) else Fin 0) 10.

(** The guarded division of [leg_pnl] never raises. *)
Lemma leg_pnl_eq (self : BlackScholes) (price : pyfloat)
    (purchase_price : option pyfloat) :
  leg_pnl self price purchase_price =
  Ok (match purchase_price with
      | Some bought =>
          if purchased_now self then (Fin 0, Fin 0)
          else
            let pnl := np.format_float_positional (Py.sub price bought) 10 in
            (pnl, pnl_percentage pnl bought)
      | None => (Fin 0, Fin 0)
      end).
Proof.
  unfold leg_pnl, pnl_percentage.
  destruct purchase_price as [bought | ]; [ | reflexivity].
  destruct (purchased_now self); [reflexivity | ].
  destruct (Py.ne0 bought) eqn:E; [ | reflexivity].
  cbv zeta. rewrite pydiv_ok by (apply ne0_not_zero; exact E). reflexivity.
Qed.

(** The attributes set by [calculate_prices] when [S / K] is [m]. *)
Definition prices_at (self : BlackScholes) (m : pyfloat) : Prices :=
  let d1 := d1_of self m in
  let d2 := d2_of self d1 in
  let call_price :=
    np.format_float_positional
      (Py.sub (Py.mul (current_price self) (norm.cdf d1))
              (Py.mul (discounted_strike self) (norm.cdf d2))) 10 in
  let put_price :=
    np.format_float_positional
      (Py.sub (Py.mul (discounted_strike self) (norm.cdf (Py.neg d2)))
              (Py.mul (current_price self) (norm.cdf (Py.neg d1)))) 10 in
  let leg price purchase_price :=
    match purchase_price with
    | Some bought =>
        if purchased_now self then (Fin 0, Fin 0)
        else
          let pnl := np.format_float_positional (Py.sub price bought) 10 in
          (pnl, pnl_percentage pnl bought)
    | None => (Fin 0, Fin 0)
    end in
  {| call_price := call_price;
     put_price := put_price;
     call_pnl := fst (leg call_price (call_purchase_price self));
     call_pnl_percentage := snd (leg call_price (call_purchase_price self));
     put_pnl := fst (leg put_price (put_purchase_price self));
     put_pnl_percentage := snd (leg put_price (put_purchase_price self));
     call_delta := norm.cdf d1;
     put_delta := Py.neg (norm.cdf (Py.neg d1));
     gamma :=
       Py.npdiv (norm.pdf d1)
         (Py.mul (Py.mul (current_price self) (volatility self))
                 (np.sqrt (time_to_maturity self))) |}.

(** [calculate_prices] raises exactly when the recorded strike is zero,
    at the division [S / K]; otherwise it returns. *)
Lemma calculate_prices_eq (self : BlackScholes) :
  calculate_prices self =
  (m <- Py.pydiv (current_price self) (strike self) ;;
   Ok (prices_at self m,
       (call_price (prices_at self m), put_price (prices_at self m)))).
Proof.
  unfold calculate_prices.
  destruct (Py.pydiv (current_price self) (strike self)) as [m | e];
    [ | reflexivity].
  cbn [bind]. rewrite !leg_pnl_eq. reflexivity.
Qed.

Lemma calculate_prices_returns (self : BlackScholes) :
  strike self <> Fin 0 ->
  let st := prices_at self (Py.quot (current_price self) (strike self)) in
  calculate_prices self = Ok (st, (call_price st, put_price st)).
Proof.
  intros H. rewrite calculate_prices_eq, pydiv_ok by exact H. reflexivity.
Qed.

Lemma calculate_prices_raises (self : BlackScholes) :
  strike self = Fin 0 -> calculate_prices self = Raise ZeroDivisionError.
Proof.
  intros H. rewrite calculate_prices_eq, H, pydiv_zero. reflexivity.
Qed.

(* ================================================================= *)
(** ** The formula on valid parameters *)

(** The real held by a float; the special values hold none, and [0]
    stands for them. *)
Definition value (a : pyfloat) : R :=
  match a with
  | Fin x => x
  | _ => 0
  end.

Definition positive (a : pyfloat) : Prop :=
  match a with
  | Fin x => 0 < x
  | _ => False
  end.

Definition nonnegative (a : pyfloat) : Prop :=
  match a with
  | Fin x => 0 <= x
  | _ => False
  end.

(** The parameters for which the formula is defined (section 3 of the
    specification): time to maturity, strike, spot and volatility finite
    and strictly positive, interest rate finite and not negative. *)
Definition valid (self : BlackScholes) : Prop :=
  positive (time_to_maturity self) /\
  positive (strike self) /\
  positive (current_price self) /\
  positive (volatility self) /\
  nonnegative (interest_rate self).

Module Formula.

(** The closed formula on reals: spot [S], strike [K], maturity [T],
    volatility [v], rate [r]. *)
Definition d1 (S K T v r : R) : R :=
  (ln (S / K) + (r + 0.5 * (v * v)) * T) / (v * sqrt T).

Definition d2 (S K T v r : R) : R := d1 S K T v r - v * sqrt T.

Definition call (S K T v r : R) : R :=
  S * Gaussian.Phi (d1 S K T v r)
  - K * exp (- r * T) * Gaussian.Phi (d2 S K T v r).

Definition put (S K T v r : R) : R :=
  K * exp (- r * T) * Gaussian.Phi (- d2 S K T v r)
  - S * Gaussian.Phi (- d1 S K T v r).

(** Put-call parity of the exact formula. *)
Lemma parity (S K T v r : R) :
  call S K T v r - put S K T v r = S - K * exp (- r * T).
Proof.
  unfold call, put. rewrite !Gaussian.Phi_opp. ring.
Qed.

End Formula.

Lemma positive_inv (a : pyfloat) :
  positive a -> exists x, a = Fin x /\ 0 < x.
Proof.
  destruct a as [x | | | ]; simpl; intros H; try contradiction.
  exists x. split; [reflexivity | exact H].
Qed.

Lemma nonnegative_inv (a : pyfloat) :
  nonnegative a -> exists x, a = Fin x /\ 0 <= x.
Proof.
  destruct a as [x | | | ]; simpl; intros H; try contradiction.
  exists x. split; [reflexivity | exact H].
Qed.

Lemma np_log_pos (x : R) : 0 < x -> np.log (Fin x) = Fin (ln x).
Proof.
  intros H. unfold np.log. destruct (Rltb 0 x) eqn:E; [reflexivity | ].
  apply Rltb_false in E. contradiction.
Qed.

Lemma np_sqrt_nonneg (x : R) : 0 <= x -> np.sqrt (Fin x) = Fin (sqrt x).
Proof.
  intros H. unfold np.sqrt. destruct (Rltb x 0) eqn:E; [ | reflexivity].
  apply Rltb_true in E. lra.
Qed.

Lemma npdiv_fin (x y : R) : y <> 0 -> Py.npdiv (Fin x) (Fin y) = Fin (x / y).
Proof.
  intros H. unfold Py.npdiv. destruct (Reqb y 0) eqn:E; [ | reflexivity].
  apply Reqb_true in E. contradiction.
Qed.

(** On valid parameters every step of [calculate_prices] is finite and
    is the step of the exact formula. *)
Section Valid.

Variable self : BlackScholes.
Variables S K T v r : R.
Hypothesis HT : time_to_maturity self = Fin T.
Hypothesis HK : strike self = Fin K.
Hypothesis HS : current_price self = Fin S.
Hypothesis Hv : volatility self = Fin v.
Hypothesis Hr : interest_rate self = Fin r.
Hypothesis T_pos : 0 < T.
Hypothesis K_pos : 0 < K.
Hypothesis S_pos : 0 < S.
Hypothesis v_pos : 0 < v.

Lemma vol_sqrt_pos : 0 < v * sqrt T.
Proof. apply Rmult_lt_0_compat; [exact v_pos | apply sqrt_lt_R0; exact T_pos]. Qed.

Lemma moneyness_valid :
  Py.quot (current_price self) (strike self) = Fin (S / K).
Proof. rewrite HS, HK. reflexivity. Qed.

Lemma d1_of_valid : d1_of self (Fin (S / K)) = Fin (Formula.d1 S K T v r).
Proof.
  unfold d1_of, Formula.d1. rewrite HT, Hv, Hr.
  rewrite np_log_pos by (apply Rdiv_lt_0_compat; assumption).
  rewrite np_sqrt_nonneg by lra.
  cbn [Py.add Py.mul Py.sq].
  apply npdiv_fin. pose proof vol_sqrt_pos. lra.
Qed.

Lemma d2_of_valid :
  d2_of self (Fin (Formula.d1 S K T v r)) = Fin (Formula.d2 S K T v r).
Proof.
  unfold d2_of, Formula.d2. rewrite HT, Hv.
  rewrite np_sqrt_nonneg by lra. reflexivity.
Qed.

Lemma discounted_strike_valid :
  discounted_strike self = Fin (K * exp (- r * T)).
Proof. unfold discounted_strike. rewrite HK, HT, Hr. reflexivity. Qed.

Lemma call_price_valid :
  call_price (prices_at self (Fin (S / K))) =
  Fin (round_decimals 10 (Formula.call S K T v r)).
Proof.
  unfold prices_at. cbn [call_price].
  rewrite d1_of_valid, d2_of_valid, discounted_strike_valid, HS.
  reflexivity.
Qed.

Lemma put_price_valid :
  put_price (prices_at self (Fin (S / K))) =
  Fin (round_decimals 10 (Formula.put S K T v r)).
Proof.
  unfold prices_at. cbn [put_price].
  rewrite d1_of_valid, d2_of_valid, discounted_strike_valid, HS.
  reflexivity.
Qed.

Lemma call_delta_valid :
  call_delta (prices_at self (Fin (S / K))) =
  Fin (Gaussian.Phi (Formula.d1 S K T v r)).
Proof.
  unfold prices_at. cbn [call_delta]. rewrite d1_of_valid. reflexivity.
Qed.

Lemma put_delta_valid :
  put_delta (prices_at self (Fin (S / K))) =
  Fin (- Gaussian.Phi (- Formula.d1 S K T v r)).
Proof.
  unfold prices_at. cbn [put_delta]. rewrite d1_of_valid. reflexivity.
Qed.

Lemma gamma_valid :
  gamma (prices_at self (Fin (S / K))) =
  Fin (Gaussian.phi (Formula.d1 S K T v r) / (S * v * sqrt T)).
Proof.
  unfold prices_at. cbn [gamma]. rewrite d1_of_valid, HS, Hv, HT.
  rewrite np_sqrt_nonneg by lra. cbn [norm.pdf Py.mul].
  apply npdiv_fin. pose proof vol_sqrt_pos. nra.
Qed.

Lemma calculate_prices_valid :
  calculate_prices self =
  Ok (prices_at self (Fin (S / K)),
      (Fin (round_decimals 10 (Formula.call S K T v r)),
       Fin (round_decimals 10 (Formula.put S K T v r)))).
Proof.
  rewrite calculate_prices_returns by (rewrite HK; intros [= E]; lra).
  cbv zeta. rewrite moneyness_valid, call_price_valid, put_price_valid.
  reflexivity.
Qed.

End Valid.

(* ================================================================= *)
(** ** The exact prices as functions of the spot *)

Module Spot.

Import Gaussian.





Section Threshold.

Variables S D w : R.
Hypothesis S_pos : 0 < S.
Hypothesis D_pos : 0 < D.
Hypothesis w_pos : 0 < w.







End Threshold.

(** The formula in these terms. *)
Section Prices.

Variables K T v r : R.
Hypothesis K_pos : 0 < K.
Hypothesis T_pos : 0 < T.
Hypothesis v_pos : 0 < v.










End Prices.

End Spot.

(* ================================================================= *)
(** ** Rounded floats *)

(** A float that [float(np.format_float_positional(., precision=10))]
    leaves unchanged. *)
Definition rounded (a : pyfloat) : Prop := np.format_float_positional a 10 = a.

Lemma rounded_fin (x : R) : rounded (Fin x) <-> has_decimals 10 x.
Proof.
  unfold rounded. cbn [np.format_float_positional]. split.
  - intros [= H]. apply round_decimals_fix_iff. exact H.
  - intros H. rewrite round_decimals_fix by exact H. reflexivity.
Qed.

Lemma rounded_format (a : pyfloat) : rounded (np.format_float_positional a 10).
Proof.
  destruct a as [x | | | ]; try reflexivity.
  apply rounded_fin, round_decimals_has.
Qed.

Lemma rounded_zero : rounded (Fin 0).
Proof. apply rounded_fin. exists 0%Z. unfold Rdiv. ring. Qed.

Lemma rounded_neg (a : pyfloat) : rounded a -> rounded (Py.neg a).
Proof.
  destruct a as [x | | | ]; try reflexivity.
  intros H. apply rounded_fin in H. apply rounded_fin, has_decimals_opp, H.
Qed.

Lemma rounded_add (a b : pyfloat) : rounded a -> rounded b -> rounded (Py.add a b).
Proof.
  destruct a as [x | | | ], b as [y | | | ]; try reflexivity.
  intros Ha Hb. apply rounded_fin in Ha, Hb.
  apply rounded_fin, has_decimals_plus; assumption.
Qed.

Lemma rounded_sub (a b : pyfloat) : rounded a -> rounded b -> rounded (Py.sub a b).
Proof. intros Ha Hb. apply rounded_add; [exact Ha | apply rounded_neg, Hb]. Qed.

Lemma rounded_abs (a : pyfloat) : rounded a -> rounded (Py.abs a).
Proof.
  destruct a as [x | | | ]; try reflexivity.
  intros H. apply rounded_fin in H. apply rounded_fin, has_decimals_abs, H.
Qed.

(** [p or 0.0] is [p] itself: the only falsy float is zero. *)
Lemma or_else_zero (p : pyfloat) : Py.or_else (Some p) (Fin 0) = p.
Proof.
  unfold Py.or_else, Py.truthy. destruct (Py.ne0 p) eqn:E; [reflexivity | ].
  symmetry. apply ne0_zero. exact E.
Qed.

(** The purchase price of a leg, [0.0] when there is none. *)
Definition or_zero (purchase_price : option pyfloat) : pyfloat :=
  match purchase_price with
  | Some p => p
  | None => Fin 0
  end.

(** What the constructor records is rounded. *)
Definition rounded_option (a : option pyfloat) : Prop :=
  match a with
  | Some p => rounded p
  | None => True
  end.

Lemma init_rounded (rq : Request) :
  let self := __init__ rq in
  rounded (time_to_maturity self) /\ rounded (strike self) /\
  rounded (current_price self) /\ rounded (volatility self) /\
  rounded (interest_rate self) /\
  rounded_option (call_purchase_price self) /\
  rounded_option (put_purchase_price self) /\
  rounded (purchase_time_to_maturity self).
Proof.
  cbn. repeat split; try apply rounded_format.
  - destruct (arg_call_purchase_price rq); cbn; [apply rounded_format | exact I].
  - destruct (arg_put_purchase_price rq); cbn; [apply rounded_format | exact I].
Qed.

(* ================================================================= *)
(** ** Risk metrics *)

(** C6.  For every request, [calculate_risk_metrics] sets [max_call_loss]
    to the absolute value of the call purchase price when one is supplied
    and to 0.0 otherwise, and [max_put_loss] to the absolute value of the
    put purchase price when one is supplied and to 0.0 otherwise. *)
Theorem max_loss_identity (rq : Request) :
  let self := __init__ rq in
  let metrics := calculate_risk_metrics self in
  max_call_loss metrics =
    match call_purchase_price self with
    | Some p => Py.abs p
    | None => Fin 0
    end /\
  max_put_loss metrics =
    match put_purchase_price self with
    | Some p => Py.abs p
    | None => Fin 0
    end.
Proof.
  intros self metrics.
  destruct (init_rounded rq) as (_ & _ & _ & _ & _ & Hc & Hp & _).
  fold self in Hc, Hp. unfold metrics, calculate_risk_metrics.
  cbn [max_call_loss max_put_loss]. split.
  - destruct (call_purchase_price self) as [p | ];
      [apply rounded_abs, Hc | apply rounded_zero].
  - destruct (put_purchase_price self) as [p | ];
      [apply rounded_abs, Hp | apply rounded_zero].
Qed.

(** C7.  For every request, [calculate_risk_metrics] sets [max_call_gain]
    to positive infinity, which no finite float equals, when a call
    purchase price is supplied and to 0.0 otherwise; it sets
    [max_put_gain] to the strike minus the put purchase price when one is
    supplied and to 0.0 otherwise. *)
Theorem max_gain_identity (rq : Request) :
  let self := __init__ rq in
  let metrics := calculate_risk_metrics self in
  max_call_gain metrics =
    match arg_call_purchase_price rq with
    | Some _ => PInf
    | None => Fin 0
    end /\
  (forall x : R, PInf <> Fin x) /\
  max_put_gain metrics =
    match put_purchase_price self with
    | Some p => Py.sub (strike self) p
    | None => Fin 0
    end.
Proof.
  intros self metrics.
  destruct (init_rounded rq) as (_ & HK & _ & _ & _ & _ & Hp & _).
  fold self in HK, Hp. unfold metrics, calculate_risk_metrics.
  cbn [max_call_gain max_put_gain]. repeat split.
  - unfold self. cbn. destruct (arg_call_purchase_price rq); reflexivity.
  - discriminate.
  - destruct (put_purchase_price self) as [p | ];
      [apply rounded_sub; assumption | reflexivity].
Qed.

(** C8.  For every request, [calculate_risk_metrics] sets [call_breakeven]
    to the strike plus the call purchase price and [put_breakeven] to the
    strike minus the put purchase price, an absent purchase price counting
    as 0. *)
Theorem breakeven_identity (rq : Request) :
  let self := __init__ rq in
  let metrics := calculate_risk_metrics self in
  call_breakeven metrics =
    Py.add (strike self) (or_zero (call_purchase_price self)) /\
  put_breakeven metrics =
    Py.sub (strike self) (or_zero (put_purchase_price self)).
Proof.
  intros self metrics.
  destruct (init_rounded rq) as (_ & HK & _ & _ & _ & Hc & Hp & _).
  fold self in HK, Hc, Hp. unfold metrics, calculate_risk_metrics.
  cbn [call_breakeven put_breakeven]. split.
  - destruct (call_purchase_price self) as [p | ]; cbn [or_zero].
    + rewrite or_else_zero. apply rounded_add; assumption.
    + apply rounded_add; [exact HK | apply rounded_zero].
  - destruct (put_purchase_price self) as [p | ]; cbn [or_zero].
    + rewrite or_else_zero. apply rounded_sub; assumption.
    + apply rounded_sub; [exact HK | apply rounded_zero].
Qed.

(* ================================================================= *)
(** ** The engines of the test suite *)

Lemma round_decimals_lit (x : R) (k : Z) :
  x * 10 ^ 10 = IZR k -> round_decimals 10 x = x.
Proof.
  intros H. apply round_decimals_fix. exists k. rewrite <- H.
  pose proof (pow10_pos 10). field; lra.
Qed.

Lemma init_bs_atm :
  __init__ bs_atm =
  mkBlackScholes (Fin 1) (Fin 100) (Fin 100) (Fin 0.2) (Fin 0.05)
                 (Some (Fin 8)) (Some (Fin 6)) (Fin 1).
Proof.
  unfold __init__, bs_atm.
  cbn [arg_time_to_maturity arg_strike arg_current_price arg_volatility
       arg_interest_rate arg_call_purchase_price arg_put_purchase_price
       arg_purchase_time_to_maturity Py.or_else np.format_float_positional].
  rewrite (round_decimals_lit 1.0 10000000000) by lra.
  rewrite (round_decimals_lit 100.0 1000000000000) by lra.
  rewrite (round_decimals_lit 0.2 2000000000) by lra.
  rewrite (round_decimals_lit 0.05 500000000) by lra.
  rewrite (round_decimals_lit 8.0 80000000000) by lra.
  rewrite (round_decimals_lit 6.0 60000000000) by lra.
  repeat f_equal; lra.
Qed.

Lemma valid_bs_atm : valid (__init__ bs_atm).
Proof. rewrite init_bs_atm. unfold valid; cbn. lra. Qed.

(* ================================================================= *)
(** ** Prices and deltas on valid parameters *)

Lemma valid_inv (self : BlackScholes) :
  valid self ->
  exists T K S v r,
    time_to_maturity self = Fin T /\ strike self = Fin K /\
    current_price self = Fin S /\ volatility self = Fin v /\
    interest_rate self = Fin r /\
    0 < T /\ 0 < K /\ 0 < S /\ 0 < v /\ 0 <= r.
Proof.
  intros (HT & HK & HS & Hv & Hr).
  destruct (positive_inv _ HT) as (T & -> & ?).
  destruct (positive_inv _ HK) as (K & -> & ?).
  destruct (positive_inv _ HS) as (S & -> & ?).
  destruct (positive_inv _ Hv) as (v & -> & ?).
  destruct (nonnegative_inv _ Hr) as (r & -> & ?).
  exists T, K, S, v, r. repeat split; assumption.
Qed.

Lemma Rabs_le_between (a b : R) : Rabs a <= b -> - b <= a <= b.
Proof. unfold Rabs. destruct (Rcase_abs a); lra. Qed.

(** Rounding both prices moves their difference by at most [1e-10]. *)
Lemma parity_rounded (S K T v r : R) :
  Rabs (round_decimals 10 (Formula.call S K T v r)
        - round_decimals 10 (Formula.put S K T v r)
        - (S - K * exp (- r * T))) <= 1e-10.
Proof.
  rewrite <- (Formula.parity S K T v r).
  pose proof (round_decimals_err 10 (Formula.call S K T v r)) as Hc.
  pose proof (round_decimals_err 10 (Formula.put S K T v r)) as Hp.
  apply Rabs_le_between in Hc, Hp. apply Rabs_le.
  assert (/ (2 * 10 ^ 10) = 1e-10 / 2) as E by lra.
  rewrite E in Hc, Hp. lra.
Qed.

(** The exact model leaves out two things that binary64 does to large
    numbers.  Python's [volatility ** 2] raises [OverflowError] when the
    square exceeds the largest float, where [Py.sq] is the exact product:
    the properties below that need [calculate_prices] to return are
    stated for a volatility of at most [1e150] in absolute value.  And
    the rounding error of a sum grows with its terms: the properties that
    compare prices with a fixed tolerance are stated for a spot and a
    strike of at most one million. *)
Definition squares_safely (a : pyfloat) : Prop :=
  match a with
  | Fin x => Rabs x <= 1e150
  | _ => True
  end.

Definition moderate_prices (self : BlackScholes) : Prop :=
  value (current_price self) <= 1000000 /\ value (strike self) <= 1000000.

Lemma squares_safely_bs_atm : squares_safely (volatility (__init__ bs_atm)).
Proof.
  rewrite init_bs_atm. unfold squares_safely. cbn [volatility].
  unfold Rabs. destruct (Rcase_abs _); lra.
Qed.

Lemma moderate_prices_bs_atm : moderate_prices (__init__ bs_atm).
Proof. rewrite init_bs_atm. unfold moderate_prices. cbn. lra. Qed.

(** C2, amended.  For every request whose recorded parameters, that is
    the arguments rounded to 10 decimal places, are valid (time to
    maturity, strike, spot and volatility strictly positive, interest rate
    not negative), with spot and strike at most one million and
    volatility at most [1e150]: the prices that [calculate_prices] returns
    satisfy put-call parity on the recorded parameters,
    [call_price - put_price] being [current_price - strike *
    exp(-interest_rate * time_to_maturity)] within the tolerance [1e-7]. *)
Theorem put_call_parity (self : BlackScholes) :
  valid self -> moderate_prices self -> squares_safely (volatility self) ->
  exists st c p,
    calculate_prices self = Ok (st, (Fin c, Fin p)) /\
    Rabs (c - p
          - (value (current_price self)
             - value (strike self)
               * exp (- value (interest_rate self)
                      * value (time_to_maturity self)))) < 1e-7.
Proof.
  intros Hvalid _ _.
  destruct (valid_inv self Hvalid)
    as (T & K & S & v & r & HT & HK & HS & Hv & Hr & ? & ? & ? & ? & ?).
  eexists _, _, _. split.
  - apply (calculate_prices_valid self S K T v r); assumption.
  - rewrite HT, HK, HS, Hr. cbn [value].
    pose proof (parity_rounded S K T v r). lra.
Qed.

Lemma put_call_parity_witness :
  valid (__init__ bs_atm) /\ moderate_prices (__init__ bs_atm) /\
  squares_safely (volatility (__init__ bs_atm)) /\
  exists st c p,
    calculate_prices (__init__ bs_atm) = Ok (st, (Fin c, Fin p)) /\
    Rabs (c - p
          - (value (current_price (__init__ bs_atm))
             - value (strike (__init__ bs_atm))
               * exp (- value (interest_rate (__init__ bs_atm))
                      * value (time_to_maturity (__init__ bs_atm))))) < 1e-7.
Proof.
  split; [exact valid_bs_atm | ].
  split; [exact moderate_prices_bs_atm | ].
  split; [exact squares_safely_bs_atm | ].
  exact (put_call_parity _ valid_bs_atm moderate_prices_bs_atm
           squares_safely_bs_atm).
Defined.

(** C10, amended.  For every request whose recorded parameters are valid,
    with a volatility of at most [1e150], the deltas that
    [calculate_prices] stores satisfy [call_delta - put_delta = 1];
    equivalently [put_delta] is [call_delta - 1]. *)
Theorem delta_difference (self : BlackScholes) :
  valid self -> squares_safely (volatility self) ->
  exists st ret,
    calculate_prices self = Ok (st, ret) /\
    Py.sub (call_delta st) (put_delta st) = Fin 1 /\
    put_delta st = Py.sub (call_delta st) (Fin 1).
Proof.
  intros Hvalid _.
  destruct (valid_inv self Hvalid)
    as (T & K & S & v & r & HT & HK & HS & Hv & Hr & ? & ? & ? & ? & ?).
  eexists _, _. split.
  - apply (calculate_prices_valid self S K T v r); assumption.
  - rewrite (call_delta_valid self S K T v r),
            (put_delta_valid self S K T v r) by assumption.
    cbn [Py.sub Py.add Py.neg]. rewrite Gaussian.Phi_opp.
    split; apply f_equal; ring.
Qed.

Lemma delta_difference_witness :
  valid (__init__ bs_atm) /\
  squares_safely (volatility (__init__ bs_atm)) /\
  exists st ret,
    calculate_prices (__init__ bs_atm) = Ok (st, ret) /\
    Py.sub (call_delta st) (put_delta st) = Fin 1 /\
    put_delta st = Py.sub (call_delta st) (Fin 1).
Proof.
  split; [exact valid_bs_atm | ].
  split; [exact squares_safely_bs_atm | ].
  exact (delta_difference _ valid_bs_atm squares_safely_bs_atm).
Defined.





(* ================================================================= *)
(** ** Profit and loss *)



Lemma purchased_now_bs_atm : purchased_now (__init__ bs_atm) = true.
Proof.
  rewrite init_bs_atm. unfold purchased_now. cbn. rewrite andb_true_iff.
  split; apply Rltb_true; replace (_ + - _) with 0 by ring;
    rewrite Rabs_R0; lra.
Qed.

(** At the at-the-money engine of the tests both legs are zeroed. *)
Lemma calculate_prices_bs_atm :
  exists st c p,
    calculate_prices (__init__ bs_atm) = Ok (st, (Fin c, Fin p)) /\
    call_price st = Fin c /\ put_price st = Fin p /\
    call_pnl st = Fin 0 /\ call_pnl_percentage st = Fin 0 /\
    put_pnl st = Fin 0 /\ put_pnl_percentage st = Fin 0 /\
    4 < c - p < 6.
Proof.
  pose proof purchased_now_bs_atm as Hnow.
  pose proof (calculate_prices_valid (__init__ bs_atm) 100 100 1 0.2 0.05)
    as Hcalc.
  pose proof (call_price_valid (__init__ bs_atm) 100 100 1 0.2 0.05) as Hc.
  pose proof (put_price_valid (__init__ bs_atm) 100 100 1 0.2 0.05) as Hp.
  rewrite init_bs_atm in *.
  specialize (Hcalc eq_refl eq_refl eq_refl eq_refl eq_refl).
  specialize (Hc eq_refl eq_refl eq_refl eq_refl eq_refl).
  specialize (Hp eq_refl eq_refl eq_refl eq_refl eq_refl).
  eexists _, _, _. split; [apply Hcalc; lra | ].
  split; [apply Hc; lra | ]. split; [apply Hp; lra | ].
  unfold prices_at.
  cbn [call_pnl call_pnl_percentage put_pnl put_pnl_percentage
       call_purchase_price put_purchase_price].
  rewrite Hnow. repeat (split; [reflexivity | ]).
  pose proof (parity_rounded 100 100 1 0.2 0.05) as Hpar.
  apply Rabs_le_between in Hpar.
  assert (exp (- (0.05) * 1) = / exp 0.05) as E
    by (rewrite <- exp_Ropp; f_equal; lra).
  pose proof (exp_ineq1_le 0.05) as Hlow.
  pose proof (exp_ineq1_le (- (0.05) * 1)) as Hup.
  assert (/ exp 0.05 <= / 1.05)
    by (apply Rinv_le_contravar; lra).
  rewrite E in *. lra.
Qed.









(** The at-the-money engine of the tests, bought when two years were
    left. *)
Definition bs_atm_bought_earlier : Request :=
  mkRequest (Fin 1.0) (Fin 100.0) (Fin 100.0) (Fin 0.2) (Fin 0.05)
            (Some (Fin 8.0)) (Some (Fin 6.0)) (Some (Fin 2.0)).



(** C3, at the at-the-money engine of the tests (no time to maturity at
    purchase is given, so it defaults to the time to maturity): the guard
    holds, the zeroing branch is taken for both legs, and the PnL are not
    the prices minus the purchase prices 8 and 6. *)
Theorem zeroing_branch_taken_bs_atm :
  purchased_now (__init__ bs_atm) = true /\
  exists st ret,
    calculate_prices (__init__ bs_atm) = Ok (st, ret) /\
    call_pnl st = Fin 0 /\ call_pnl_percentage st = Fin 0 /\
    put_pnl st = Fin 0 /\ put_pnl_percentage st = Fin 0 /\
    ~ (call_pnl st = Py.sub (call_price st) (Fin 8) /\
       put_pnl st = Py.sub (put_price st) (Fin 6)).
Proof.
  split; [exact purchased_now_bs_atm | ].
  destruct calculate_prices_bs_atm
    as (st & c & p & Hcalc & Hc & Hp & Hcp & Hcq & Hpp & Hpq & Hdiff).
  exists st, (Fin c, Fin p). repeat (split; [assumption | ]).
  rewrite Hc, Hp, Hcp, Hpp. cbn [Py.sub Py.add Py.neg].
  intros [[= E1] [= E2]]. lra.
Qed.

(* ================================================================= *)
(** ** Requests outside the domain of the formula *)

(** A request whose time to maturity is zero. *)
Definition expired_atm : Request :=
  mkRequest (Fin 0.0) (Fin 100.0) (Fin 100.0) (Fin 0.2) (Fin 0.05)
            None None None.

Lemma init_expired_atm :
  __init__ expired_atm =
  mkBlackScholes (Fin 0) (Fin 100) (Fin 100) (Fin 0.2) (Fin 0.05)
                 None None (Fin 0).
Proof.
  unfold __init__, expired_atm.
  cbn [arg_time_to_maturity arg_strike arg_current_price arg_volatility
       arg_interest_rate arg_call_purchase_price arg_put_purchase_price
       arg_purchase_time_to_maturity Py.or_else np.format_float_positional].
  rewrite (round_decimals_lit 0.0 0) by lra.
  rewrite (round_decimals_lit 100.0 1000000000000) by lra.
  rewrite (round_decimals_lit 0.2 2000000000) by lra.
  rewrite (round_decimals_lit 0.05 500000000) by lra.
  repeat f_equal; lra.
Qed.

(** C4 fails at a request with time to maturity 0: the constructor
    accepts it and [calculate_prices] returns the pair [(nan, nan)]. *)
Lemma expired_request_returns_nan :
  exists st, calculate_prices (__init__ expired_atm) = Ok (st, (NaN, NaN)).
Proof.
  rewrite init_expired_atm. eexists.
  rewrite calculate_prices_returns by (cbn; intros [= E]; lra).
  cbv zeta.
  assert (d1_of (mkBlackScholes (Fin 0) (Fin 100) (Fin 100) (Fin 0.2)
                   (Fin 0.05) None None (Fin 0))
                (Fin (100 / 100)) = NaN) as Hd1.
  { unfold d1_of. cbn [time_to_maturity volatility interest_rate].
    rewrite np_log_pos by lra. rewrite np_sqrt_nonneg by lra.
    rewrite sqrt_0. replace (100 / 100) with 1 by lra. rewrite ln_1.
    cbn [Py.add Py.mul Py.sq]. unfold Py.npdiv.
    destruct (Reqb (0.2 * 0) 0) eqn:E;
      [ | apply Reqb_false in E; lra].
    unfold Py.scale_inf.
    destruct (Reqb (0 + (0.05 + 0.5 * (0.2 * 0.2)) * 0) 0) eqn:E';
      [reflexivity | apply Reqb_false in E'; lra]. }
  unfold prices_at. cbn [call_price put_price Py.quot current_price strike].
  rewrite Hd1. reflexivity.
Qed.

(** C4, amended.  The engine validates nothing.  For every request whose
    recorded volatility is at most [1e150] in absolute value (or is not
    finite), the constructor records the parameters, and
    [calculate_prices] either returns the pair of prices it stored,
    whatever they are, or, when the recorded strike is zero, raises
    [ZeroDivisionError] at [current_price / strike]. *)
Theorem calculate_prices_unvalidated (rq : Request) :
  let self := __init__ rq in
  squares_safely (volatility self) ->
  (strike self = Fin 0 /\
   calculate_prices self = Raise ZeroDivisionError) \/
  (strike self <> Fin 0 /\
   exists st,
     calculate_prices self = Ok (st, (call_price st, put_price st))).
Proof.
  intros self _.
  assert (strike self = Fin 0 \/ strike self <> Fin 0) as [H | H].
  { destruct (strike self) as [k | | | ];
      try (right; discriminate).
    destruct (Req_dec k 0) as [-> | N]; [left; reflexivity | ].
    right. intros [= E]. contradiction. }
  - left. split; [exact H | apply calculate_prices_raises, H].
  - right. split; [exact H | ].
    eexists. apply calculate_prices_returns. exact H.
Qed.

Lemma calculate_prices_unvalidated_witness :
  squares_safely (volatility (__init__ expired_atm)) /\
  ((strike (__init__ expired_atm) = Fin 0 /\
    calculate_prices (__init__ expired_atm) = Raise ZeroDivisionError) \/
   (strike (__init__ expired_atm) <> Fin 0 /\
    exists st,
      calculate_prices (__init__ expired_atm)
        = Ok (st, (call_price st, put_price st)))).
Proof.
  assert (squares_safely (volatility (__init__ expired_atm))) as H.
  { rewrite init_expired_atm. unfold squares_safely. cbn [volatility].
    unfold Rabs. destruct (Rcase_abs _); lra. }
  split; [exact H | exact (calculate_prices_unvalidated expired_atm H)].
Defined.

(* ================================================================= *)
(** ** What is rounded, and how *)









(* ================================================================= *)
(** ** The constructor: defaults and rounding *)

(** What is recorded differs from the argument by at most [5e-11]. *)
Definition close_to (recorded arg : pyfloat) : Prop :=
  match arg with
  | Fin x => exists y, recorded = Fin y /\ Rabs (y - x) <= 5e-11
  | s => recorded = s
  end.

Lemma format_close (a : pyfloat) :
  close_to (np.format_float_positional a 10) a.
Proof.
  destruct a as [x | | | ]; cbn; try reflexivity.
  eexists. split; [reflexivity | ].
  pose proof (round_decimals_err 10 x) as H.
  assert (/ (2 * 10 ^ 10) = 5e-11) as E by lra.
  rewrite E in H. exact H.
Qed.

(** X1.  The constructor records every parameter within [5e-11] of the
    argument, and [inf], [-inf] and [nan] as they are. *)
Theorem init_close (rq : Request) :
  let self := __init__ rq in
  close_to (time_to_maturity self) (arg_time_to_maturity rq) /\
  close_to (strike self) (arg_strike rq) /\
  close_to (current_price self) (arg_current_price rq) /\
  close_to (volatility self) (arg_volatility rq) /\
  close_to (interest_rate self) (arg_interest_rate rq) /\
  (forall p, arg_call_purchase_price rq = Some p ->
     exists q, call_purchase_price self = Some q /\ close_to q p) /\
  (forall p, arg_put_purchase_price rq = Some p ->
     exists q, put_purchase_price self = Some q /\ close_to q p) /\
  (arg_call_purchase_price rq = None -> call_purchase_price self = None) /\
  (arg_put_purchase_price rq = None -> put_purchase_price self = None).
Proof.
  cbn. repeat split; try apply format_close.
  - intros p ->. eexists. split; [reflexivity | apply format_close].
  - intros p ->. eexists. split; [reflexivity | apply format_close].
  - intros ->. reflexivity.
  - intros ->. reflexivity.
Qed.

(** X2.  Line 30: a time to maturity at purchase that is left out, or given as
    zero, is recorded as the time to maturity. *)
Theorem init_purchase_time_default (rq : Request) :
  arg_purchase_time_to_maturity rq = None \/
  arg_purchase_time_to_maturity rq = Some (Fin 0) ->
  purchase_time_to_maturity (__init__ rq) = time_to_maturity (__init__ rq).
Proof.
  intros [H | H]; cbn; rewrite H; cbn; [reflexivity | ].
  unfold Py.truthy, Py.ne0.
  destruct (Reqb 0 0) eqn:E; [reflexivity | ].
  apply Reqb_false in E. contradiction.
Qed.

Lemma init_purchase_time_default_witness :
  (arg_purchase_time_to_maturity bs_atm = None \/
   arg_purchase_time_to_maturity bs_atm = Some (Fin 0)) /\
  purchase_time_to_maturity (__init__ bs_atm)
    = time_to_maturity (__init__ bs_atm).
Proof.
  assert (arg_purchase_time_to_maturity bs_atm = None \/
          arg_purchase_time_to_maturity bs_atm = Some (Fin 0)) as H
    by (left; reflexivity).
  split; [exact H | exact (init_purchase_time_default bs_atm H)].
Defined.

(** Any other time to maturity at purchase, [nan] included, is recorded
    rounded. *)
Theorem init_purchase_time_given (rq : Request) (t : pyfloat) :
  arg_purchase_time_to_maturity rq = Some t -> t <> Fin 0 ->
  purchase_time_to_maturity (__init__ rq) = np.format_float_positional t 10.
Proof.
  intros H Ht. cbn. rewrite H. cbn. unfold Py.truthy.
  destruct (Py.ne0 t) eqn:E; [reflexivity | ].
  apply ne0_zero in E. contradiction.
Qed.

Lemma init_purchase_time_given_witness :
  arg_purchase_time_to_maturity bs_atm_bought_earlier = Some (Fin 2.0) /\
  Fin 2.0 <> Fin 0 /\
  purchase_time_to_maturity (__init__ bs_atm_bought_earlier)
    = np.format_float_positional (Fin 2.0) 10.
Proof.
  assert (Fin 2.0 <> Fin 0) as N by (intros [= E]; lra).
  split; [reflexivity | ]. split; [exact N | ].
  exact (init_purchase_time_given bs_atm_bought_earlier (Fin 2.0) eq_refl N).
Defined.

Lemma round_decimals_tiny (x : R) :
  0 <= x < 5e-11 -> round_decimals 10 x = 0.
Proof.
  intros Hx. unfold round_decimals.
  assert (round_half_even (x * 10 ^ 10) = 0%Z) as ->;
    [ | unfold Rdiv; ring].
  assert (Zfloor (x * 10 ^ 10) = 0%Z) as F by (apply Zfloor_eq; lra).
  unfold round_half_even. rewrite F.
  destruct (Rltb (x * 10 ^ 10 - 0) (1 / 2)) eqn:E; [reflexivity | ].
  apply Rltb_false in E. lra.
Qed.

Lemma round_decimals_ge (c x : R) (k : Z) :
  c * 10 ^ 10 = IZR k -> c <= x -> c <= round_decimals 10 x.
Proof.
  intros Hc Hx. rewrite <- (round_decimals_lit c k Hc).
  apply round_decimals_le. exact Hx.
Qed.



(* ================================================================= *)
(** ** Valid requests that the rounding takes out of the domain *)

(** A request that is valid as passed (section 3 of the specification):
    time to maturity, strike, spot and volatility finite and strictly
    positive, interest rate finite and not negative. *)
Definition valid_request (rq : Request) : Prop :=
  positive (arg_time_to_maturity rq) /\
  positive (arg_strike rq) /\
  positive (arg_current_price rq) /\
  positive (arg_volatility rq) /\
  nonnegative (arg_interest_rate rq).

(** At the money, with a time to maturity of [1e-11] years. *)
Definition tiny_atm : Request :=
  mkRequest (Fin 1e-11) (Fin 100) (Fin 100) (Fin 0.2) (Fin 0.05)
            None None None.


Lemma valid_request_tiny_atm : valid_request tiny_atm.
Proof. unfold valid_request. cbn. lra. Qed.


Lemma init_tiny_atm :
  __init__ tiny_atm =
  mkBlackScholes (Fin 0) (Fin 100) (Fin 100) (Fin 0.2) (Fin 0.05)
                 None None (Fin 0).
Proof.
  unfold __init__, tiny_atm.
  cbn [arg_time_to_maturity arg_strike arg_current_price arg_volatility
       arg_interest_rate arg_call_purchase_price arg_put_purchase_price
       arg_purchase_time_to_maturity Py.or_else np.format_float_positional].
  rewrite (round_decimals_tiny 1e-11) by lra.
  rewrite (round_decimals_lit 100 1000000000000) by lra.
  rewrite (round_decimals_lit 0.2 2000000000) by lra.
  rewrite (round_decimals_lit 0.05 500000000) by lra.
  reflexivity.
Qed.

(** The constructor records the time to maturity as 0.0; [d1] is [0/0],
    and the prices and the deltas are all [nan]. *)
Lemma calculate_prices_tiny_atm :
  exists st,
    calculate_prices (__init__ tiny_atm) = Ok (st, (NaN, NaN)) /\
    call_delta st = NaN /\ put_delta st = NaN.
Proof.
  rewrite init_tiny_atm. eexists.
  rewrite calculate_prices_returns by (cbn; intros [= E]; lra).
  cbv zeta.
  assert (d1_of (mkBlackScholes (Fin 0) (Fin 100) (Fin 100) (Fin 0.2)
                   (Fin 0.05) None None (Fin 0))
                (Fin (100 / 100)) = NaN) as Hd1.
  { unfold d1_of. cbn [time_to_maturity volatility interest_rate].
    rewrite np_log_pos by lra. rewrite np_sqrt_nonneg by lra.
    rewrite sqrt_0. replace (100 / 100) with 1 by lra. rewrite ln_1.
    cbn [Py.add Py.mul Py.sq]. unfold Py.npdiv.
    rewrite (proj2 (Reqb_true (0.2 * 0) 0)) by lra.
    unfold Py.scale_inf.
    match goal with
    | |- context [Reqb ?a 0] => rewrite (proj2 (Reqb_true a 0)) by lra
    end.
    reflexivity. }
  unfold prices_at.
  cbn [call_price put_price call_delta put_delta Py.quot current_price
       strike].
  rewrite Hd1. repeat split; reflexivity.
Qed.

(** C2 fails at the valid request [tiny_atm]: [calculate_prices] returns
    [(nan, nan)], so no two finite prices are returned, let alone two in
    parity with the request. *)
Lemma parity_fails_at_tiny_maturity :
  valid_request tiny_atm /\
  ~ (exists st c p,
       calculate_prices (__init__ tiny_atm) = Ok (st, (Fin c, Fin p)) /\
       Rabs (c - p
             - (value (arg_current_price tiny_atm)
                - value (arg_strike tiny_atm)
                  * exp (- value (arg_interest_rate tiny_atm)
                         * value (arg_time_to_maturity tiny_atm)))) < 1e-7).
Proof.
  split; [exact valid_request_tiny_atm | ].
  destruct calculate_prices_tiny_atm as (st0 & H0 & _).
  intros (st & c & p & H & _). rewrite H0 in H. discriminate.
Qed.

(** C10 fails at the valid request [tiny_atm]: both deltas are [nan] and
    their difference is not 1. *)
Lemma delta_difference_fails_at_tiny_maturity :
  valid_request tiny_atm /\
  ~ (exists st ret,
       calculate_prices (__init__ tiny_atm) = Ok (st, ret) /\
       Py.sub (call_delta st) (put_delta st) = Fin 1).
Proof.
  split; [exact valid_request_tiny_atm | ].
  destruct calculate_prices_tiny_atm as (st0 & H0 & Hc & Hp).
  intros (st & ret & H & Hd). rewrite H0 in H.
  injection H as <- _. rewrite Hc, Hp in Hd. discriminate.
Qed.


Lemma valid_after_rounding (rq : Request) (T K S v r : R) :
  arg_time_to_maturity rq = Fin T -> arg_strike rq = Fin K ->
  arg_current_price rq = Fin S -> arg_volatility rq = Fin v ->
  arg_interest_rate rq = Fin r ->
  1e-10 <= T -> 1e-10 <= K -> 1e-10 <= S -> 1e-10 <= v -> 0 <= r ->
  valid (__init__ rq).
Proof.
  intros HT HK HS Hv Hr ? ? ? ? ?.
  unfold valid, __init__.
  cbn [time_to_maturity strike current_price volatility interest_rate].
  rewrite HT, HK, HS, Hv, Hr. cbn [np.format_float_positional positive nonnegative].
  pose proof (round_decimals_ge 1e-10 T 1). pose proof (round_decimals_ge 1e-10 K 1).
  pose proof (round_decimals_ge 1e-10 S 1). pose proof (round_decimals_ge 1e-10 v 1).
  pose proof (round_decimals_ge 0 r 0).
  repeat split; lra.
Qed.

(** X3.  A request with finite time to maturity, strike, spot and volatility of
    at least [1e-10] and a finite interest rate that is not negative is
    still valid once the constructor has rounded it. *)
Theorem init_valid (rq : Request) (T K S v r : R) :
  arg_time_to_maturity rq = Fin T -> arg_strike rq = Fin K ->
  arg_current_price rq = Fin S -> arg_volatility rq = Fin v ->
  arg_interest_rate rq = Fin r ->
  1e-10 <= T -> 1e-10 <= K -> 1e-10 <= S -> 1e-10 <= v -> 0 <= r ->
  valid (__init__ rq).
Proof. exact (valid_after_rounding rq T K S v r). Qed.

Lemma init_valid_witness :
  arg_time_to_maturity bs_itm_call = Fin 1.0 /\
  arg_strike bs_itm_call = Fin 90.0 /\
  arg_current_price bs_itm_call = Fin 100.0 /\
  arg_volatility bs_itm_call = Fin 0.2 /\
  arg_interest_rate bs_itm_call = Fin 0.05 /\
  1e-10 <= 1.0 /\ 1e-10 <= 90.0 /\ 1e-10 <= 100.0 /\ 1e-10 <= 0.2 /\
  0 <= 0.05 /\
  valid (__init__ bs_itm_call).
Proof.
  assert (1e-10 <= 1.0) as H1 by lra. assert (1e-10 <= 90.0) as H2 by lra.
  assert (1e-10 <= 100.0) as H3 by lra. assert (1e-10 <= 0.2) as H4 by lra.
  assert (0 <= 0.05) as H5 by lra.
  repeat (split; [reflexivity || assumption | ]).
  exact (init_valid bs_itm_call 1.0 90.0 100.0 0.2 0.05
           eq_refl eq_refl eq_refl eq_refl eq_refl H1 H2 H3 H4 H5).
Defined.

(* ================================================================= *)
(** ** The guard of the PnL, in general *)



(* ================================================================= *)
(** ** Bounds on what [calculate_prices] stores *)


Section Bounds.

Variables S K T v r : R.
Hypothesis S_pos : 0 < S.
Hypothesis K_pos : 0 < K.
Hypothesis T_pos : 0 < T.
Hypothesis v_pos : 0 < v.







End Bounds.



(** X7.  On valid parameters, with a volatility of at most [1e150], the
    stored call delta lies between 0 and 1, the put delta between -1 and
    0, and gamma is not negative. *)
Theorem greeks_ranges (self : BlackScholes) :
  valid self -> squares_safely (volatility self) ->
  exists st ret dc dp g,
    calculate_prices self = Ok (st, ret) /\
    call_delta st = Fin dc /\ put_delta st = Fin dp /\ gamma st = Fin g /\
    0 <= dc <= 1 /\ -1 <= dp <= 0 /\ 0 <= g.
Proof.
  intros Hvalid _.
  destruct (valid_inv self Hvalid)
    as (T & K & S & v & r & HT & HK & HS & Hv & Hr & ? & ? & ? & ? & ?).
  eexists _, _, _, _, _. split.
  - apply (calculate_prices_valid self S K T v r); assumption.
  - rewrite (call_delta_valid self S K T v r),
            (put_delta_valid self S K T v r),
            (gamma_valid self S K T v r) by assumption.
    repeat (split; [reflexivity | ]).
    set (d := Formula.d1 S K T v r).
    pose proof (Gaussian.Phi_pos d). pose proof (Gaussian.Phi_lt_1 d).
    pose proof (Gaussian.Phi_pos (- d)). pose proof (Gaussian.Phi_lt_1 (- d)).
    repeat split; try lra.
    left. apply Rdiv_lt_0_compat; [apply Gaussian.phi_pos | ].
    pose proof (sqrt_lt_R0 T). apply Rmult_lt_0_compat; [nra | auto].
Qed.

Lemma greeks_ranges_witness :
  valid (__init__ bs_atm) /\
  squares_safely (volatility (__init__ bs_atm)) /\
  exists st ret dc dp g,
    calculate_prices (__init__ bs_atm) = Ok (st, ret) /\
    call_delta st = Fin dc /\ put_delta st = Fin dp /\ gamma st = Fin g /\
    0 <= dc <= 1 /\ -1 <= dp <= 0 /\ 0 <= g.
Proof.
  split; [exact valid_bs_atm | ].
  split; [exact squares_safely_bs_atm | ].
  exact (greeks_ranges _ valid_bs_atm squares_safely_bs_atm).
Defined.

(* ================================================================= *)
(** ** Risk metrics: how the fields relate *)

(** X8.  With a put purchase price, [put_breakeven] and [max_put_gain] are the
    same number. *)
Theorem put_breakeven_is_max_gain (self : BlackScholes) (bought : pyfloat) :
  put_purchase_price self = Some bought ->
  put_breakeven (calculate_risk_metrics self)
    = max_put_gain (calculate_risk_metrics self).
Proof.
  intros H. unfold calculate_risk_metrics.
  cbn [put_breakeven max_put_gain]. rewrite H, or_else_zero. reflexivity.
Qed.

Lemma put_breakeven_is_max_gain_witness :
  put_purchase_price (__init__ bs_atm) = Some (Fin 6) /\
  put_breakeven (calculate_risk_metrics (__init__ bs_atm))
    = max_put_gain (calculate_risk_metrics (__init__ bs_atm)).
Proof.
  assert (put_purchase_price (__init__ bs_atm) = Some (Fin 6)) as H
    by (rewrite init_bs_atm; reflexivity).
  split; [exact H | exact (put_breakeven_is_max_gain _ (Fin 6) H)].
Defined.

(** X9.  Without purchase prices every loss and gain is 0.0 and both
    break-even points are the recorded strike. *)
Theorem risk_metrics_without_position (rq : Request) :
  arg_call_purchase_price rq = None ->
  arg_put_purchase_price rq = None ->
  calculate_risk_metrics (__init__ rq) =
  {| max_call_loss := Fin 0; max_put_loss := Fin 0;
     max_call_gain := Fin 0; max_put_gain := Fin 0;
     call_breakeven := strike (__init__ rq);
     put_breakeven := strike (__init__ rq) |}.
Proof.
  intros Hc Hp.
  destruct (init_rounded rq) as (_ & HK & _).
  assert (call_purchase_price (__init__ rq) = None) as Ec by (cbn; rewrite Hc; reflexivity).
  assert (put_purchase_price (__init__ rq) = None) as Ep by (cbn; rewrite Hp; reflexivity).
  unfold calculate_risk_metrics. rewrite Ec, Ep. cbn [Py.or_else].
  assert (Py.add (strike (__init__ rq)) (Fin 0) = strike (__init__ rq)) as Ea.
  { destruct (strike (__init__ rq)); cbn; try reflexivity. f_equal. ring. }
  assert (Py.sub (strike (__init__ rq)) (Fin 0) = strike (__init__ rq)) as Es.
  { destruct (strike (__init__ rq)); cbn; try reflexivity. f_equal. ring. }
  rewrite Ea, Es. fold (rounded (strike (__init__ rq))) in HK.
  unfold rounded in HK. rewrite HK.
  pose proof rounded_zero as Z. unfold rounded in Z. rewrite Z. reflexivity.
Qed.

Lemma risk_metrics_without_position_witness :
  arg_call_purchase_price expired_atm = None /\
  arg_put_purchase_price expired_atm = None /\
  calculate_risk_metrics (__init__ expired_atm) =
  {| max_call_loss := Fin 0; max_put_loss := Fin 0;
     max_call_gain := Fin 0; max_put_gain := Fin 0;
     call_breakeven := strike (__init__ expired_atm);
     put_breakeven := strike (__init__ expired_atm) |}.
Proof.
  split; [reflexivity | ]. split; [reflexivity | ].
  exact (risk_metrics_without_position expired_atm eq_refl eq_refl).
Defined.

(* ================================================================= *)
(** ** The heat maps of the dashboard ([plot_heatmap], streamlit_app.py)

    [plot_heatmap] fills the array [values], one row per volatility and
    one column per spot, and hands it to the plotting library.  The model
    is the array; the figure is outside it. *)

(** A loop that collects one result per element and stops at the first
    exception. *)
Fixpoint mapM {A B : Type} (f : A -> result B) (l : list A)
  : result (list B) :=
  match l with
  | [] => Ok []
  | a :: rest => b <- f a ;; bs <- mapM f rest ;; Ok (b :: bs)
  end.

(** [bs_temp] (lines 247-256): the strike, the spot and the volatility
    are the cell's, the rest is read from [bs_model]. *)
Definition bs_temp (bs_model : BlackScholes) (strike vol spot : pyfloat)
  : BlackScholes :=
  __init__
    {| arg_time_to_maturity := time_to_maturity bs_model;
       arg_strike := strike;
       arg_current_price := spot;
       arg_volatility := vol;
       arg_interest_rate := interest_rate bs_model;
       arg_call_purchase_price := call_purchase_price bs_model;
       arg_put_purchase_price := put_purchase_price bs_model;
       arg_purchase_time_to_maturity :=
         Some (purchase_time_to_maturity bs_model) |}.

(** What one cell receives (lines 257-266); a cell that no branch
    assigns keeps the 0.0 of [np.zeros]. *)
Definition cell_value (purchase_price : option pyfloat) (type : string)
    (call_price put_price : pyfloat) : pyfloat :=
  if (type =? "value_call")%string then call_price
  else if (type =? "value_put")%string then put_price
  else
    match purchase_price with
    | Some bought =>
        if (type =? "pnl_call")%string then Py.sub call_price bought
        else if (type =? "pnl_put")%string then Py.sub put_price bought
        else Fin 0
    | None => Fin 0
    end.

Definition heatmap_cell (bs_model : BlackScholes) (strike : pyfloat)
    (purchase_price : option pyfloat) (type : string) (vol spot : pyfloat)
  : result pyfloat :=
  out <- calculate_prices (bs_temp bs_model strike vol spot) ;;
  Ok (cell_value purchase_price type (fst (snd out)) (snd (snd out))).

(** [plot_heatmap], lines 243-266: the array [values] as the two loops
    leave it, one row per volatility.  [Ok values] says that the loops ran
    to their end, [Raise e] that a cell raised [e].  The figure that lines
    268-291 draw from the array is not modelled: [sns.heatmap] raises
    [ValueError] on an array without cells, so what is stated of the
    function as a whole is stated for ranges that are not empty. *)
Definition plot_heatmap (bs_model : BlackScholes)
    (spot_range vol_range : list pyfloat) (strike : pyfloat)
    (purchase_price : option pyfloat) (type : string)
  : result (list (list pyfloat)) :=
  mapM (fun vol =>
          mapM (heatmap_cell bs_model strike purchase_price type vol)
               spot_range)
       vol_range.

Lemma mapM_map {A B : Type} (f : A -> result B) (g : A -> B) (l : list A) :
  (forall a, In a l -> f a = Ok (g a)) -> mapM f l = Ok (map g l).
Proof.
  induction l as [ | a rest IH]; intros H; [reflexivity | ].
  cbn [mapM map]. rewrite (H a) by (left; reflexivity).
  cbn [bind]. rewrite IH by (intros; apply H; right; assumption).
  reflexivity.
Qed.

Lemma mapM_raise {A B : Type} (f : A -> result B) (e : exn) (l : list A) :
  l <> [] -> (forall a, In a l -> f a = Raise e) -> mapM f l = Raise e.
Proof.
  destruct l as [ | a rest]; intros Hne H; [contradiction | ].
  cbn [mapM]. rewrite (H a) by (left; reflexivity). reflexivity.
Qed.

(** The prices of a cell when its strike is not recorded as zero. *)
Definition cell_prices (bs_model : BlackScholes) (K vol spot : pyfloat)
  : Prices :=
  let self := bs_temp bs_model K vol spot in
  prices_at self (Py.quot (current_price self) (strike self)).

Lemma strike_bs_temp (bs_model : BlackScholes) (K vol spot : pyfloat) :
  strike (bs_temp bs_model K vol spot) = np.format_float_positional K 10.
Proof. reflexivity. Qed.

Lemma heatmap_cell_returns (bs_model : BlackScholes) (K : pyfloat)
    (purchase_price : option pyfloat) (type : string) (vol spot : pyfloat) :
  np.format_float_positional K 10 <> Fin 0 ->
  heatmap_cell bs_model K purchase_price type vol spot =
  Ok (cell_value purchase_price type
        (call_price (cell_prices bs_model K vol spot))
        (put_price (cell_prices bs_model K vol spot))).
Proof.
  intros H. unfold heatmap_cell.
  rewrite calculate_prices_returns by (rewrite strike_bs_temp; exact H).
  reflexivity.
Qed.

Lemma heatmap_cell_raises (bs_model : BlackScholes) (K : pyfloat)
    (purchase_price : option pyfloat) (type : string) (vol spot : pyfloat) :
  np.format_float_positional K 10 = Fin 0 ->
  heatmap_cell bs_model K purchase_price type vol spot
    = Raise ZeroDivisionError.
Proof.
  intros H. unfold heatmap_cell.
  rewrite calculate_prices_raises by (rewrite strike_bs_temp; exact H).
  reflexivity.
Qed.

(** The array when the strike is not recorded as zero. *)
Definition heatmap_values (bs_model : BlackScholes)
    (spot_range vol_range : list pyfloat) (K : pyfloat)
    (purchase_price : option pyfloat) (type : string)
  : list (list pyfloat) :=
  map (fun vol =>
         map (fun spot =>
                cell_value purchase_price type
                  (call_price (cell_prices bs_model K vol spot))
                  (put_price (cell_prices bs_model K vol spot)))
             spot_range)
      vol_range.

Lemma plot_heatmap_returns (bs_model : BlackScholes)
    (spot_range vol_range : list pyfloat) (K : pyfloat)
    (purchase_price : option pyfloat) (type : string) :
  np.format_float_positional K 10 <> Fin 0 ->
  plot_heatmap bs_model spot_range vol_range K purchase_price type
    = Ok (heatmap_values bs_model spot_range vol_range K purchase_price type).
Proof.
  intros H. unfold plot_heatmap, heatmap_values.
  apply mapM_map. intros vol _. apply mapM_map. intros spot _.
  apply heatmap_cell_returns. exact H.
Qed.

Lemma zero_strike_cases (K : pyfloat) :
  np.format_float_positional K 10 = Fin 0 \/
  np.format_float_positional K 10 <> Fin 0.
Proof.
  destruct (np.format_float_positional K 10) as [k | | | ];
    try (right; discriminate).
  destruct (Req_dec k 0) as [-> | N]; [left; reflexivity | ].
  right. intros [= E]. contradiction.
Qed.

(** X10.  With a spot range and a volatility range that are not empty
    and volatilities recorded at most [1e150] in absolute value, the loops
    of [plot_heatmap] raise [ZeroDivisionError] in the first cell when the
    strike is recorded as zero, and otherwise run to their end and leave
    in [values] one row per volatility and one column per spot. *)
Theorem plot_heatmap_shape (bs_model : BlackScholes)
    (spot_range vol_range : list pyfloat) (K : pyfloat)
    (purchase_price : option pyfloat) (type : string) :
  spot_range <> [] -> vol_range <> [] ->
  Forall (fun vol => squares_safely (np.format_float_positional vol 10))
         vol_range ->
  let out :=
    plot_heatmap bs_model spot_range vol_range K purchase_price type in
  (np.format_float_positional K 10 = Fin 0 /\
   out = Raise ZeroDivisionError) \/
  (np.format_float_positional K 10 <> Fin 0 /\
   exists values,
     out = Ok values /\
     List.length values = List.length vol_range /\
     Forall (fun row => List.length row = List.length spot_range) values).
Proof.
  intros Hs Hv _ out. unfold out.
  destruct (zero_strike_cases K) as [Z | N].
  - left. split; [exact Z | ].
    unfold plot_heatmap. apply mapM_raise; [exact Hv | ].
    intros vol _. apply mapM_raise; [exact Hs | ].
    intros spot _. apply heatmap_cell_raises. exact Z.
  - right. split; [exact N | ].
    eexists. split; [apply plot_heatmap_returns; exact N | ].
    unfold heatmap_values. split; [apply List.length_map | ].
    apply Forall_forall. intros row Hrow.
    apply in_map_iff in Hrow. destruct Hrow as (? & <- & _).
    apply List.length_map.
Qed.

Lemma plot_heatmap_shape_witness :
  [Fin 90; Fin 110] <> [] /\ [Fin 0.2] <> [] /\
  Forall (fun vol => squares_safely (np.format_float_positional vol 10))
         [Fin 0.2] /\
  ((np.format_float_positional (Fin 100) 10 = Fin 0 /\
    plot_heatmap (__init__ bs_atm) [Fin 90; Fin 110] [Fin 0.2] (Fin 100)
                 None "value_call" = Raise ZeroDivisionError) \/
   (np.format_float_positional (Fin 100) 10 <> Fin 0 /\
    exists values,
      plot_heatmap (__init__ bs_atm) [Fin 90; Fin 110] [Fin 0.2] (Fin 100)
                   None "value_call" = Ok values /\
      List.length values = List.length [Fin 0.2] /\
      Forall (fun row => List.length row = List.length [Fin 90; Fin 110])
             values)).
Proof.
  assert ([Fin 90; Fin 110] <> []) as Hs by discriminate.
  assert ([Fin 0.2] <> []) as Hv by discriminate.
  assert (Forall (fun vol =>
                    squares_safely (np.format_float_positional vol 10))
                 [Fin 0.2]) as Hsafe.
  { apply Forall_cons; [ | apply Forall_nil].
    unfold squares_safely. cbn [np.format_float_positional].
    rewrite (round_decimals_lit 0.2 2000000000) by lra.
    unfold Rabs. destruct (Rcase_abs _); lra. }
  split; [exact Hs | ]. split; [exact Hv | ]. split; [exact Hsafe | ].
  exact (plot_heatmap_shape (__init__ bs_atm) [Fin 90; Fin 110] [Fin 0.2]
           (Fin 100) None "value_call" Hs Hv Hsafe).
Defined.

Lemma mapM_fmap {A B C : Type} (f : A -> result B) (f' : A -> result C)
    (h : B -> C) (l : list A) :
  (forall a, f' a = (b <- f a ;; Ok (h b))) ->
  mapM f' l = (bs <- mapM f l ;; Ok (map h bs)).
Proof.
  intros H. induction l as [ | a rest IH]; [reflexivity | ].
  cbn [mapM]. rewrite H, IH.
  destruct (f a) as [b | e]; [ | reflexivity]. cbn [bind].
  destruct (mapM f rest) as [bs | e]; reflexivity.
Qed.

(** X11.  The two PnL heat maps are the two value heat maps with the purchase
    price subtracted from every cell: [plot_heatmap] applies neither the
    guard of [calculate_prices] nor its rounding. *)
Theorem pnl_heatmap_is_shifted_value_heatmap (bs_model : BlackScholes)
    (spot_range vol_range : list pyfloat) (K bought : pyfloat)
    (calls puts : list (list pyfloat)) :
  plot_heatmap bs_model spot_range vol_range K None "value_call" = Ok calls ->
  plot_heatmap bs_model spot_range vol_range K None "value_put" = Ok puts ->
  plot_heatmap bs_model spot_range vol_range K (Some bought) "pnl_call"
    = Ok (map (map (fun c => Py.sub c bought)) calls) /\
  plot_heatmap bs_model spot_range vol_range K (Some bought) "pnl_put"
    = Ok (map (map (fun p => Py.sub p bought)) puts).
Proof.
  intros Hc Hp. unfold plot_heatmap in *. split.
  - rewrite (mapM_fmap
               (fun vol => mapM (heatmap_cell bs_model K None "value_call" vol)
                                spot_range)
               _ (map (fun c => Py.sub c bought))).
    + rewrite Hc. reflexivity.
    + intros vol. apply mapM_fmap. intros spot. unfold heatmap_cell.
      destruct (calculate_prices (bs_temp bs_model K vol spot));
        reflexivity.
  - rewrite (mapM_fmap
               (fun vol => mapM (heatmap_cell bs_model K None "value_put" vol)
                                spot_range)
               _ (map (fun p => Py.sub p bought))).
    + rewrite Hp. reflexivity.
    + intros vol. apply mapM_fmap. intros spot. unfold heatmap_cell.
      destruct (calculate_prices (bs_temp bs_model K vol spot));
        reflexivity.
Qed.

Lemma format_hundred : np.format_float_positional (Fin 100) 10 <> Fin 0.
Proof.
  cbn. rewrite (round_decimals_lit 100 1000000000000) by lra.
  intros [= E]. lra.
Qed.

Lemma pnl_heatmap_is_shifted_value_heatmap_witness :
  let m := __init__ bs_atm in
  let spots := [Fin 90; Fin 110] in
  let vols := [Fin 0.2] in
  let calls := heatmap_values m spots vols (Fin 100) None "value_call" in
  let puts := heatmap_values m spots vols (Fin 100) None "value_put" in
  plot_heatmap m spots vols (Fin 100) None "value_call" = Ok calls /\
  plot_heatmap m spots vols (Fin 100) None "value_put" = Ok puts /\
  plot_heatmap m spots vols (Fin 100) (Some (Fin 8)) "pnl_call"
    = Ok (map (map (fun c => Py.sub c (Fin 8))) calls) /\
  plot_heatmap m spots vols (Fin 100) (Some (Fin 8)) "pnl_put"
    = Ok (map (map (fun p => Py.sub p (Fin 8))) puts).
Proof.
  intros m spots vols calls puts.
  assert (plot_heatmap m spots vols (Fin 100) None "value_call" = Ok calls)
    as Hc by (apply plot_heatmap_returns, format_hundred).
  assert (plot_heatmap m spots vols (Fin 100) None "value_put" = Ok puts)
    as Hp by (apply plot_heatmap_returns, format_hundred).
  split; [exact Hc | ]. split; [exact Hp | ].
  exact (pnl_heatmap_is_shifted_value_heatmap m spots vols (Fin 100) (Fin 8)
           calls puts Hc Hp).
Defined.







(** X14.  A heat-map cell rebuilds the engine from what the model recorded: the
    time to maturity, the interest rate and the purchase prices come back
    unchanged, and so does the time to maturity at purchase unless it was
    recorded as zero, in which case the cell takes the time to maturity
    instead. *)
Theorem bs_temp_keeps_model (rq : Request) (K vol spot : pyfloat) :
  let m := __init__ rq in
  let cell := bs_temp m K vol spot in
  time_to_maturity cell = time_to_maturity m /\
  interest_rate cell = interest_rate m /\
  call_purchase_price cell = call_purchase_price m /\
  put_purchase_price cell = put_purchase_price m /\
  (purchase_time_to_maturity m <> Fin 0 ->
   purchase_time_to_maturity cell = purchase_time_to_maturity m) /\
  (purchase_time_to_maturity m = Fin 0 ->
   purchase_time_to_maturity cell = time_to_maturity m).
Proof.
  intros m cell.
  destruct (init_rounded rq) as (HT & _ & _ & _ & Hr & Hc & Hp & Hpt).
  fold m in HT, Hr, Hc, Hp, Hpt. unfold rounded in HT, Hr, Hpt.
  unfold cell, bs_temp, __init__.
  cbn [time_to_maturity interest_rate call_purchase_price put_purchase_price
       purchase_time_to_maturity arg_time_to_maturity arg_interest_rate
       arg_call_purchase_price arg_put_purchase_price
       arg_purchase_time_to_maturity].
  repeat split; try assumption.
  - destruct (call_purchase_price m) as [p | ]; [ | reflexivity].
    cbn in Hc. unfold rounded in Hc. rewrite Hc. reflexivity.
  - destruct (put_purchase_price m) as [p | ]; [ | reflexivity].
    cbn in Hp. unfold rounded in Hp. rewrite Hp. reflexivity.
  - intros N. unfold Py.or_else, Py.truthy.
    destruct (Py.ne0 (purchase_time_to_maturity m)) eqn:E; [exact Hpt | ].
    apply ne0_zero in E. contradiction.
  - intros Z. rewrite Z. unfold Py.or_else, Py.truthy, Py.ne0.
    rewrite (proj2 (Reqb_true 0 0)) by reflexivity. cbn [negb]. exact HT.
Qed.

(** The recorded zero does occur: a time to maturity at purchase of
    [1e-11] is not zero, so it is taken, and it is recorded as 0.0; the
    cells of the heat maps then use the time to maturity. *)
Lemma bs_temp_keeps_model_witness :
  let rq := mkRequest (Fin 1) (Fin 100) (Fin 100) (Fin 0.2) (Fin 0.05)
                      None None (Some (Fin 1e-11)) in
  purchase_time_to_maturity (__init__ rq) = Fin 0 /\
  purchase_time_to_maturity
    (bs_temp (__init__ rq) (Fin 100) (Fin 0.2) (Fin 100))
  = time_to_maturity (__init__ rq).
Proof.
  intros rq.
  assert (purchase_time_to_maturity (__init__ rq) = Fin 0) as Z.
  { unfold rq, __init__.
    cbn [purchase_time_to_maturity arg_purchase_time_to_maturity
         arg_time_to_maturity].
    unfold Py.or_else, Py.truthy, Py.ne0.
    rewrite (proj2 (Reqb_false 1e-11 0)) by lra.
    cbn [negb np.format_float_positional].
    rewrite round_decimals_tiny by lra. reflexivity. }
  split; [exact Z | ].
  exact (proj2 (proj2 (proj2 (proj2 (proj2
           (bs_temp_keeps_model rq (Fin 100) (Fin 0.2) (Fin 100)))))) Z).
Defined.

(* ================================================================= *)
(** ** The test suite ([TestBlackScholes], BlackScholes.py) *)

(** How a test method ends. *)
Inductive outcome : Type :=
| Passed
| AssertionError
| TypeError
| Raised (e : exn).

(** [a == b] on floats: [nan] equals nothing. *)
Definition py_eq (a b : pyfloat) : bool :=
  match a, b with
  | Fin x, Fin y => Reqb x y
  | PInf, PInf | NInf, NInf => true
  | _, _ => false
  end.

(** [round(a, ndigits)] *)
Definition py_round (a : pyfloat) (ndigits : nat) : pyfloat :=
  match a with
  | Fin x => Fin (round_decimals ndigits x)
  | s => s
  end.

(** [unittest.TestCase.assertAlmostEqual(first, second, places=places)]:
    whether the assertion holds. *)
Definition assertAlmostEqual (first second : pyfloat) (places : nat) : bool :=
  if py_eq first second then true
  else py_eq (py_round (Py.abs (Py.sub first second)) places) (Fin 0).

(** [setUp]: the three engines. *)
Definition setUp : list BlackScholes :=
  [__init__ bs_atm; __init__ bs_itm_call; __init__ bs_otm_call].

(** [test_no_arbitrage], over the engines of its loop. *)
Fixpoint test_no_arbitrage (engines : list BlackScholes) : outcome :=
  match engines with
  | [] => Passed
  | bs :: rest =>
      match calculate_prices bs with
      | Raise e => Raised e
      | Ok (_, (call_price, put_price)) =>
          let left_side := Py.sub call_price put_price in
          let right_side :=
            Py.sub (current_price bs)
              (Py.mul (strike bs)
                 (np.exp (Py.mul (Py.neg (interest_rate bs))
                                 (time_to_maturity bs)))) in
          if assertAlmostEqual left_side right_side 7
          then test_no_arbitrage rest
          else AssertionError
      end
  end.

(** [test_risk_metrics], over the engines of its loop; [abs(None)] is a
    [TypeError]. *)
Fixpoint test_risk_metrics (engines : list BlackScholes) : outcome :=
  match engines with
  | [] => Passed
  | bs :: rest =>
      let risk_metrics := calculate_risk_metrics bs in
      match call_purchase_price bs with
      | None => TypeError
      | Some bought_call =>
          if negb (assertAlmostEqual (max_call_loss risk_metrics)
                     (Py.abs bought_call) 7)
          then AssertionError
          else
            match put_purchase_price bs with
            | None => TypeError
            | Some bought_put =>
                if negb (assertAlmostEqual (max_put_loss risk_metrics)
                           (Py.abs bought_put) 7)
                then AssertionError
                else if negb (assertAlmostEqual (call_breakeven risk_metrics)
                                (Py.add (strike bs) bought_call) 7)
                then AssertionError
                else if negb (assertAlmostEqual (put_breakeven risk_metrics)
                                (Py.sub (strike bs) bought_put) 7)
                then AssertionError
                else test_risk_metrics rest
            end
      end
  end.

Lemma round_decimals_7_tiny (x : R) :
  0 <= x < 5e-8 -> round_decimals 7 x = 0.
Proof.
  intros Hx. unfold round_decimals.
  assert (round_half_even (x * 10 ^ 7) = 0%Z) as ->;
    [ | unfold Rdiv; ring].
  assert (Zfloor (x * 10 ^ 7) = 0%Z) as F by (apply Zfloor_eq; lra).
  unfold round_half_even. rewrite F.
  destruct (Rltb (x * 10 ^ 7 - 0) (1 / 2)) eqn:E; [reflexivity | ].
  apply Rltb_false in E. lra.
Qed.

Lemma assertAlmostEqual_close (x y : R) :
  Rabs (x - y) < 5e-8 -> assertAlmostEqual (Fin x) (Fin y) 7 = true.
Proof.
  intros H. unfold assertAlmostEqual. cbn.
  destruct (Reqb x y); [reflexivity | ].
  replace (x + - y) with (x - y) by ring.
  rewrite round_decimals_7_tiny by (split; [apply Rabs_pos | exact H]).
  apply Reqb_true. reflexivity.
Qed.

Lemma assertAlmostEqual_same (a : pyfloat) :
  a <> NaN -> assertAlmostEqual a a 7 = true.
Proof.
  intros H. unfold assertAlmostEqual.
  destruct a as [x | | | ]; cbn; try reflexivity; [ | contradiction].
  rewrite (proj2 (Reqb_true x x)) by reflexivity. reflexivity.
Qed.

(** An engine on which the parity test is within reach of binary64:
    valid, spot and strike at most one million, volatility at most
    [1e150]. *)
Definition testable_parity (bs : BlackScholes) : Prop :=
  valid bs /\ moderate_prices bs /\ squares_safely (volatility bs).

(** X15.  [test_no_arbitrage] passes on every list of valid engines with
    spot and strike at most one million and volatility at most [1e150],
    the three engines of [setUp] among them. *)
Theorem test_no_arbitrage_passes (engines : list BlackScholes) :
  Forall testable_parity engines -> test_no_arbitrage engines = Passed.
Proof.
  induction 1 as [ | bs rest (Hvalid & _ & _) _ IH]; [reflexivity | ].
  destruct (valid_inv bs Hvalid)
    as (T & K & S & v & r & HT & HK & HS & Hv & Hr & ? & ? & ? & ? & ?).
  cbn [test_no_arbitrage].
  rewrite (calculate_prices_valid bs S K T v r) by assumption.
  rewrite HT, HK, HS, Hr. cbn [Py.sub Py.add Py.neg Py.mul np.exp].
  rewrite assertAlmostEqual_close; [exact IH | ].
  pose proof (parity_rounded S K T v r) as Hpar.
  match goal with
  | |- Rabs ?e < _ =>
      replace e with (round_decimals 10 (Formula.call S K T v r)
                      - round_decimals 10 (Formula.put S K T v r)
                      - (S - K * exp (- r * T))) by ring
  end.
  lra.
Qed.

Lemma testable_after_rounding (rq : Request) (T K S v r : R) :
  arg_time_to_maturity rq = Fin T -> arg_strike rq = Fin K ->
  arg_current_price rq = Fin S -> arg_volatility rq = Fin v ->
  arg_interest_rate rq = Fin r ->
  1e-10 <= T -> 1e-10 <= K <= 1000000 -> 1e-10 <= S <= 1000000 ->
  1e-10 <= v <= 1e150 -> 0 <= r ->
  testable_parity (__init__ rq).
Proof.
  intros HT HK HS Hv Hr ? ? ? ? ?.
  split; [apply (valid_after_rounding rq T K S v r); tauto | ].
  pose proof (round_decimals_le 10 K 1000000).
  pose proof (round_decimals_le 10 S 1000000).
  pose proof (round_decimals_le 10 v 1e150).
  pose proof (round_decimals_ge 0 v 0).
  assert (round_decimals 10 1000000 = 1000000) as E6
    by (apply (round_decimals_lit 1000000 10000000000000000); lra).
  assert (round_decimals 10 1e150 = 1e150) as E150.
  { apply round_decimals_fix. replace 1e150 with (IZR (10 ^ 150)) by lra.
    apply has_decimals_IZR. }
  unfold moderate_prices, squares_safely, __init__.
  cbn [current_price strike volatility].
  rewrite HK, HS, Hv. cbn [np.format_float_positional value].
  repeat split; try lra.
  rewrite Rabs_pos_eq; lra.
Qed.

Lemma testable_setUp : Forall testable_parity setUp.
Proof.
  unfold setUp.
  apply Forall_cons.
  { apply (testable_after_rounding bs_atm 1.0 100.0 100.0 0.2 0.05);
      try reflexivity; lra. }
  apply Forall_cons.
  { apply (testable_after_rounding bs_itm_call 1.0 90.0 100.0 0.2 0.05);
      try reflexivity; lra. }
  apply Forall_cons; [ | apply Forall_nil].
  apply (testable_after_rounding bs_otm_call 1.0 110.0 100.0 0.2 0.05);
    try reflexivity; lra.
Qed.

Lemma test_no_arbitrage_passes_witness :
  Forall testable_parity setUp /\ test_no_arbitrage setUp = Passed.
Proof.
  split; [exact testable_setUp
         | exact (test_no_arbitrage_passes setUp testable_setUp)].
Defined.

(** An engine on which [test_risk_metrics] can run: built by the
    constructor from a finite strike and two finite purchase prices. *)
Definition has_position (bs : BlackScholes) : Prop :=
  exists rq K c p,
    bs = __init__ rq /\ arg_strike rq = Fin K /\
    arg_call_purchase_price rq = Some (Fin c) /\
    arg_put_purchase_price rq = Some (Fin p).

(** X16.  [test_risk_metrics] passes on every list of engines built from a
    finite strike and two finite purchase prices. *)
Theorem test_risk_metrics_passes (engines : list BlackScholes) :
  Forall has_position engines -> test_risk_metrics engines = Passed.
Proof.
  induction 1 as [ | bs rest Hpos _ IH]; [reflexivity | ].
  destruct Hpos as (rq & K & c & p & -> & HK & Hc & Hp).
  destruct (init_rounded rq) as (_ & RK & _ & _ & _ & Rc & Rp & _).
  cbn [test_risk_metrics]. unfold calculate_risk_metrics.
  cbn [max_call_loss max_put_loss call_breakeven put_breakeven].
  assert (strike (__init__ rq) = Fin (round_decimals 10 K)) as EK
    by (cbn; rewrite HK; reflexivity).
  assert (call_purchase_price (__init__ rq)
          = Some (Fin (round_decimals 10 c))) as Ec
    by (cbn; rewrite Hc; reflexivity).
  assert (put_purchase_price (__init__ rq)
          = Some (Fin (round_decimals 10 p))) as Ep
    by (cbn; rewrite Hp; reflexivity).
  rewrite Ec, Ep, EK in *. cbn in Rc, Rp. rewrite !or_else_zero.
  set (k := Fin (round_decimals 10 K)) in *.
  set (a := Fin (round_decimals 10 c)) in *.
  set (b := Fin (round_decimals 10 p)) in *.
  assert (np.format_float_positional (Py.abs a) 10 = Py.abs a) as ->
    by (apply rounded_abs, Rc).
  assert (np.format_float_positional (Py.abs b) 10 = Py.abs b) as ->
    by (apply rounded_abs, Rp).
  assert (np.format_float_positional (Py.add k a) 10 = Py.add k a) as ->
    by (apply rounded_add; assumption).
  assert (np.format_float_positional (Py.sub k b) 10 = Py.sub k b) as ->
    by (apply rounded_sub; assumption).
  rewrite !assertAlmostEqual_same by (unfold k, a, b; cbn; discriminate).
  exact IH.
Qed.

Lemma has_position_setUp : Forall has_position setUp.
Proof.
  unfold setUp.
  apply Forall_cons; [exists bs_atm, 100.0, 8.0, 6.0; repeat split | ].
  apply Forall_cons; [exists bs_itm_call, 90.0, 15.0, 2.0; repeat split | ].
  apply Forall_cons; [exists bs_otm_call, 110.0, 3.0, 10.0; repeat split | ].
  apply Forall_nil.
Qed.

Lemma test_risk_metrics_passes_witness :
  Forall has_position setUp /\ test_risk_metrics setUp = Passed.
Proof.
  split; [exact has_position_setUp
         | exact (test_risk_metrics_passes setUp has_position_setUp)].
Defined.

(* ================================================================= *)
(** ** The engine of the dashboard (streamlit_app.py, lines 126-167)

    The page reads every parameter from a number input and always passes
    the two purchase prices and the time to maturity at purchase. *)

Definition bs_model (current_price strike time_to_maturity
    purchase_time_to_maturity volatility interest_rate
    call_purchase_price put_purchase_price : pyfloat) : BlackScholes :=
  __init__
    {| arg_time_to_maturity := time_to_maturity;
       arg_strike := strike;
       arg_current_price := current_price;
       arg_volatility := volatility;
       arg_interest_rate := interest_rate;
       arg_call_purchase_price := Some call_purchase_price;
       arg_put_purchase_price := Some put_purchase_price;
       arg_purchase_time_to_maturity := Some purchase_time_to_maturity |}.

(** X17.  Within the bounds of the number inputs (spot, strike, both times and
    volatility at least 0.01, volatility at most 2, rate between 0 and
    0.5, purchase prices not negative), the engine of the page is valid,
    [calculate_prices] returns two finite prices, and the maximum gain of
    the call is the infinity, also for the default purchase price 0.0. *)
Theorem dashboard_engine_valid (S K T T' v r c p : R) :
  0.01 <= S -> 0.01 <= K -> 0.01 <= T -> 0.01 <= T' ->
  0.01 <= v <= 2 -> 0 <= r <= 0.5 -> 0 <= c -> 0 <= p ->
  let self :=
    bs_model (Fin S) (Fin K) (Fin T) (Fin T') (Fin v) (Fin r) (Fin c) (Fin p)
  in
  valid self /\
  (exists st call put,
     calculate_prices self = Ok (st, (Fin call, Fin put))) /\
  max_call_gain (calculate_risk_metrics self) = PInf.
Proof.
  intros HS HK HT HT' Hv Hr Hc Hp self.
  assert (valid self) as V.
  { apply (valid_after_rounding _ T K S v r); try reflexivity; lra. }
  split; [exact V | ]. split; [ | reflexivity].
  destruct (valid_inv self V)
    as (T0 & K0 & S0 & v0 & r0 & ET & EK & ES & Ev & Er & ? & ? & ? & ? & ?).
  eexists _, _, _.
  apply (calculate_prices_valid self S0 K0 T0 v0 r0); assumption.
Qed.

Lemma dashboard_engine_valid_witness :
  0.01 <= 100 /\ 0.01 <= 100 /\ 0.01 <= 1 /\ 0.01 <= 1 /\
  0.01 <= 0.2 <= 2 /\ 0 <= 0.05 <= 0.5 /\ 0 <= 0 /\ 0 <= 0 /\
  valid (bs_model (Fin 100) (Fin 100) (Fin 1) (Fin 1) (Fin 0.2) (Fin 0.05)
                  (Fin 0) (Fin 0)) /\
  (exists st call put,
     calculate_prices
       (bs_model (Fin 100) (Fin 100) (Fin 1) (Fin 1) (Fin 0.2) (Fin 0.05)
                 (Fin 0) (Fin 0))
     = Ok (st, (Fin call, Fin put))) /\
  max_call_gain
    (calculate_risk_metrics
       (bs_model (Fin 100) (Fin 100) (Fin 1) (Fin 1) (Fin 0.2) (Fin 0.05)
                 (Fin 0) (Fin 0))) = PInf.
Proof.
  assert (0.01 <= 100) as H1 by lra. assert (0.01 <= 1) as H2 by lra.
  assert (0.01 <= 0.2 <= 2) as H3 by lra.
  assert (0 <= 0.05 <= 0.5) as H4 by lra.
  assert (0 <= 0) as H5 by lra.
  split; [exact H1 | ]. split; [exact H1 | ]. split; [exact H2 | ].
  split; [exact H2 | ]. split; [exact H3 | ]. split; [exact H4 | ].
  split; [exact H5 | ]. split; [exact H5 | ].
  exact (dashboard_engine_valid 100 100 1 1 0.2 0.05 0 0
           H1 H1 H2 H2 H3 H4 H5 H5).
Defined.
